(** * Token-data aggregation and caching layer: [bot/utils/token_data.py]

    A shallow embedding of [get_sol_price] and [fetch_token_data] together
    with the module-level [TTLCache] they share, followed by the properties
    the specification states about them.

    Modelling conventions.
    - A decoded JSON document is a value of [json]; a Python [dict] with
      string keys is an association list in insertion order, looked up by
      first match.  A JSON number is an [int] ([JInt]) or a [float]
      ([JFloat]), as [json.loads] makes it.
    - A Python [float] is an IEEE binary64 number: Rocq's primitive
      [float], with its division, comparison, infinities and [nan].
      [float(n)] on an [int] rounds to nearest and raises [OverflowError]
      beyond the range; [float(s)] on a [str] is a parameter of the
      development ([str_to_float]).
    - [str.lower] is a parameter of the development ([lower]): it follows
      the Unicode case tables, which are not reproduced here.
    - [sorted] is a parameter of the development ([py_sorted_reverse]),
      known to be the stable descending sort on keys none of which is
      [nan]; with a [nan] among the keys its result is left open.
    - Exceptions are values of [exn]; every one of them is a subclass of
      Python's [Exception].  [asyncio.CancelledError] and the other
      [BaseException]s are outside the model.
    - The upstream services and the cache clock are an explicit [World]. *)

From Stdlib Require Import List String Ascii ZArith QArith Qabs Bool Lia.
From Corelib Require Import PrimFloat FloatOps SpecFloat.
Import ListNotations.
Open Scope string_scope.
Open Scope list_scope.
Open Scope Z_scope.
#[local] Set Warnings "-inexact-float".

(** ** Exceptions and fallible computations *)

Inductive exn : Type :=
| ValueError (msg : string)
| KeyError (key : string)
| TypeError
| AttributeError
| OverflowError
| IndexError
| ClientError          (* aiohttp transport failure *)
| TimeoutError         (* asyncio.TimeoutError *)
| ContentTypeError.    (* resp.json() on a body that is not JSON *)

Inductive res (A : Type) : Type :=
| Ok (a : A)
| Raise (e : exn).
Arguments Ok {A} a.
Arguments Raise {A} e.

Definition res_bind {A B} (r : res A) (k : A -> res B) : res B :=
  match r with
  | Ok a => k a
  | Raise e => Raise e
  end.

Notation "'let?' x := r 'in' k" := (res_bind r (fun x => k))
  (at level 10, x name, r at level 100, k at level 200).

(** ** JSON values as Python sees them after [resp.json()] *)

#[local] Set Warnings "-register-all".
Inductive json : Type :=
| JNull
| JBool (b : bool)
| JInt (n : Z)
| JFloat (f : float)
| JStr (s : string)
| JArr (items : list json)
| JObj (fields : list (string * json)).

Definition dict := list (string * json).

Fixpoint dict_lookup (key : string) (d : dict) : option json :=
  match d with
  | [] => None
  | (k, v) :: rest => if String.eqb k key then Some v else dict_lookup key rest
  end.

Definition dict_keys (d : dict) : list string := map fst d.

(** Python truthiness, as used by [not data.get("pairs")] and by the
    walrus test on the cached value. *)
Definition truthy (v : json) : bool :=
  match v with
  | JNull => false
  | JBool b => b
  | JInt n => negb (n =? 0)
  | JFloat f => negb (f =? 0)%float
  | JStr s => negb (String.eqb s "")
  | JArr items => match items with [] => false | _ => true end
  | JObj fields => match fields with [] => false | _ => true end
  end.

Definition dict_truthy (d : dict) : bool := truthy (JObj d).

(** [x[key]] with a string key. *)
Definition subscript (x : json) (key : string) : res json :=
  match x with
  | JObj fields =>
      match dict_lookup key fields with
      | Some v => Ok v
      | None => Raise (KeyError key)
      end
  | _ => Raise TypeError
  end.

(** [x.get(key, default)]: only a dict has the method. *)
Definition py_get (x : json) (key : string) (default : json) : res json :=
  match x with
  | JObj fields =>
      match dict_lookup key fields with
      | Some v => Ok v
      | None => Ok default
      end
  | _ => Raise AttributeError
  end.

(** ** Letter case *)

Definition lower_ascii (c : ascii) : ascii :=
  let n := nat_of_ascii c in
  if ((65 <=? n) && (n <=? 90))%nat then ascii_of_nat (n + 32) else c.

(** Lowercasing of the letters A-Z alone: the instance of [str.lower]
    the examples run on. *)
Fixpoint ascii_lower (s : string) : string :=
  match s with
  | EmptyString => EmptyString
  | String c rest => String (lower_ascii c) (ascii_lower rest)
  end.

(** Iterating a value, as [sorted] does on its first argument: a list
    yields its elements, a dict its keys, a str its characters. *)
Fixpoint chars (s : string) : list json :=
  match s with
  | EmptyString => []
  | String c rest => JStr (String c EmptyString) :: chars rest
  end.

Definition py_iter (x : json) : res (list json) :=
  match x with
  | JArr items => Ok items
  | JObj fields => Ok (map (fun kv => JStr (fst kv)) fields)
  | JStr s => Ok (chars s)
  | _ => Raise TypeError
  end.

(** ** Floats *)

(** The nearest binary64 number to an integer, ties to even; infinite
    beyond the range. *)
Definition nearest_float (n : Z) : float :=
  SF2Prim (binary_normalize prec emax n 0 false).

(** [float(n)] on an [int]. *)
Definition float_of_int (n : Z) : res float :=
  let f := nearest_float n in
  if is_infinity f then Raise OverflowError else Ok f.

(** The real number a float stands for; [nan] stands for none. *)
Inductive ext : Type :=
| NegInf
| Fin (q : Q)
| PosInf.

Definition pow2 (e : Z) : Q :=
  match e with
  | Zneg p => 1 # (2 ^ p)%positive
  | _ => (2 ^ e) # 1
  end.

(** [m * 2^e]. *)
Definition magnitude (m : positive) (e : Z) : Q := (Zpos m # 1) * pow2 e.

Definition float_value (f : float) : option ext :=
  match Prim2SF f with
  | S754_nan => None
  | S754_zero _ => Some (Fin 0)
  | S754_infinity s => Some (if s then NegInf else PosInf)
  | S754_finite s m e => Some (Fin (if s then - magnitude m e else magnitude m e))
  end.

Definition ext_leb (a b : ext) : bool :=
  match a, b with
  | NegInf, _ => true
  | _, PosInf => true
  | Fin x, Fin y => Qle_bool x y
  | _, _ => false
  end.

(** [x <= y] and [x < y] on the numbers two floats stand for; neither
    holds when one of them is [nan]. *)
Definition float_le (x y : float) : Prop :=
  exists a b, float_value x = Some a /\ float_value y = Some b /\ ext_leb a b = true.

Definition float_lt (x y : float) : Prop :=
  exists a b, float_value x = Some a /\ float_value y = Some b /\ ext_leb b a = false.

Definition value_leb (x y : float) : bool :=
  match float_value x, float_value y with
  | Some a, Some b => ext_leb a b
  | _, _ => false
  end.

(** Round to the nearest integer, ties to the even one. *)
Definition round_half_even (q : Q) : Z :=
  let n := Qnum q in
  let d := Zpos (Qden q) in
  let fl := n / d in
  let r2 := 2 * (n mod d) in
  if r2 <? d then fl
  else if d <? r2 then fl + 1
  else if Z.even fl then fl else fl + 1.

(** [round(x, 4)] on a float: the decimal with four places nearest to the
    exact value of [x], ties to even, read back as the nearest float.
    From [2^53 / 10^4] on, neighbouring floats are more than [10^-4]
    apart and the float read back is [x] again. *)
Definition round4 (x : float) : float :=
  match Prim2SF x with
  | S754_finite s m e =>
      let n := round_half_even (magnitude m e * (10000 # 1)) in
      if n <? 2 ^ 53 then
        let r := (nearest_float n / 10000)%float in
        if s then (- r)%float else r
      else x
  | _ => x
  end.

(** [round(v, 4)] on the numbers the module rounds: a float is rounded,
    an [int] comes back as it is. *)
Definition py_round4 (v : json) : json :=
  match v with
  | JFloat f => JFloat (round4 f)
  | _ => v
  end.

(** A reader of short decimal literals, the instance of [float(str)] the
    examples run on: an optional sign, digits, and an optional fraction,
    of at most 22 places and 15 digits or so in all, so that numerator
    and denominator are floats and one division gives the nearest one. *)
Definition digit_of (c : ascii) : option Z :=
  let n := nat_of_ascii c in
  if ((48 <=? n) && (n <=? 57))%nat then Some (Z.of_nat (n - 48)) else None.

Fixpoint read_digits (s : string) (acc : Z) (scale : positive)
  : option (Z * positive * string) :=
  match s with
  | EmptyString => Some (acc, scale, EmptyString)
  | String c rest =>
      match digit_of c with
      | Some d => read_digits rest (10 * acc + d) (10 * scale)%positive
      | None => Some (acc, scale, s)
      end
  end.

Definition starts_with_digit (s : string) : bool :=
  match s with
  | String c _ => match digit_of c with Some _ => true | None => false end
  | EmptyString => false
  end.

Definition short_ratio (n : Z) (d : positive) : option float :=
  if (n <? 2 ^ 53) && (Zpos d <=? 10 ^ 22)
  then Some (nearest_float n / nearest_float (Zpos d))%float
  else None.

Definition parse_unsigned (s : string) : option float :=
  if starts_with_digit s then
    match read_digits s 0 1 with
    | Some (ip, _, EmptyString) => short_ratio ip 1
    | Some (ip, _, String "." frac) =>
        match read_digits frac 0 1 with
        | Some (fp, scale, EmptyString) => short_ratio (ip * Zpos scale + fp) scale
        | _ => None
        end
    | _ => None
    end
  else None.

Definition parse_decimal (s : string) : option float :=
  match s with
  | String "-" rest => option_map opp (parse_unsigned rest)
  | String "+" rest => parse_unsigned rest
  | _ => parse_unsigned s
  end.

(** ** The shared cache: [TTLCache(maxsize=500, ttl=300)]

    The entries are kept in the order of the cache's links, least recently
    used first.  Every operation reads the timer once. *)

Record entry : Type := { e_key : string; e_value : dict; e_expires : Z }.

Definition Cache := list entry.

Definition maxsize : nat := 500.
Definition ttl : Z := 300.

Fixpoint cache_find (key : string) (c : Cache) : option entry :=
  match c with
  | [] => None
  | e :: rest => if String.eqb (e_key e) key then Some e else cache_find key rest
  end.

Definition cache_remove (key : string) (c : Cache) : Cache :=
  filter (fun e => negb (String.eqb (e_key e) key)) c.

(** [expire(time)]: drop every entry whose time has come. *)
Definition expire (now : Z) (c : Cache) : Cache :=
  filter (fun e => now <? e_expires e) c.

(** [cache.get(key)]: a live entry is returned and becomes the most
    recently used one; an absent or expired one gives [None] and leaves
    the cache as it is. *)
Definition cache_get (key : string) (now : Z) (c : Cache) : option dict * Cache :=
  match cache_find key c with
  | Some e =>
      if now <? e_expires e
      then (Some (e_value e), cache_remove key c ++ [e])
      else (None, c)
  | None => (None, c)
  end.

(** [cache[key] = value]: expired entries go first, then, for a new key,
    the least recently used ones while the cache is full. *)
Definition cache_set (key : string) (value : dict) (now : Z) (c : Cache) : Cache :=
  let c1 := expire now c in
  let c2 :=
    match cache_find key c1 with
    | Some _ => c1
    | None => skipn (List.length c1 + 1 - maxsize)%nat c1
    end in
  cache_remove key c2 ++ [{| e_key := key; e_value := value; e_expires := now + ttl |}].

(** ** The world outside the process *)

Record response : Type := { status : Z; json_body : res json }.

Inductive http_outcome : Type :=
| Failed (e : exn)                (* no response: transport error or timeout *)
| Answered (resp : response).

(** What one invocation of [fetch_token_data] meets: the cache timer at
    the lookup and at the write, and what each URL answers. *)
Record World : Type := {
  now_lookup : Z;
  http : string -> http_outcome;
  now_write : Z
}.

(** ** Stateful, fallible computations

    The state is the shared cache and the log of the HTTP requests sent;
    it survives a raised exception, as in Python. *)

Record State : Type := { cache : Cache; requests : list string }.

Definition M (A : Type) : Type := State -> res A * State.

Definition ret {A} (a : A) : M A := fun s => (Ok a, s).

Definition raise {A} (e : exn) : M A := fun s => (Raise e, s).

Definition bind {A B} (m : M A) (k : A -> M B) : M B :=
  fun s =>
    match m s with
    | (Ok a, s') => k a s'
    | (Raise e, s') => (Raise e, s')
    end.

Definition lift {A} (r : res A) : M A := fun s => (r, s).

Definition try_except {A} (body : M A) (handler : exn -> M A) : M A :=
  fun s =>
    match body s with
    | (Ok a, s') => (Ok a, s')
    | (Raise e, s') => handler e s'
    end.

Notation "x <- m ;; k" := (bind m (fun x => k))
  (at level 61, m at next level, right associativity).
Notation "x <~ r ;; k" := (bind (lift r) (fun x => k))
  (at level 61, r at next level, right associativity).

Definition logged (s : State) (url : string) : State :=
  {| cache := cache s; requests := requests s ++ [url] |}.

(** [session.get(url)]: the request is logged, then the world answers. *)
Definition http_get (w : World) (url : string) : M response :=
  fun s =>
    let s' := logged s url in
    match http w url with
    | Failed e => (Raise e, s')
    | Answered resp => (Ok resp, s')
    end.

Definition cache_lookup (key : string) (now : Z) : M (option dict) :=
  fun s =>
    let '(found, c') := cache_get key now (cache s) in
    (Ok found, {| cache := c'; requests := requests s |}).

Definition cache_store (key : string) (value : dict) (now : Z) : M unit :=
  fun s =>
    (Ok tt, {| cache := cache_set key value now (cache s); requests := requests s |}).

(** ** The module *)

Definition DEXSCREENER_API_BASE_URL : string := "https://api.dexscreener.com/latest/dex".

Definition SOL_PRICE_URL : string := "https://price.jup.ag/v4/price?ids=SOL".

Definition search_url (contract_address : string) : string :=
  (DEXSCREENER_API_BASE_URL ++ "/search?q=" ++ contract_address)%string.

(** The stable descending sort of items paired with their keys: items
    with equal keys keep their original order. *)
Fixpoint insert_desc (x : float * json) (l : list (float * json)) : list (float * json) :=
  match l with
  | [] => [x]
  | y :: rest =>
      if value_leb (fst y) (fst x) then x :: l else y :: insert_desc x rest
  end.

Fixpoint sorted_desc (l : list (float * json)) : list (float * json) :=
  match l with
  | [] => []
  | x :: rest => insert_desc x (sorted_desc rest)
  end.

(** The key function is applied to the items in list order; the first
    failure ends the sort. *)
Fixpoint keyed (key : json -> res float) (items : list json)
  : res (list (float * json)) :=
  match items with
  | [] => Ok []
  | p :: rest =>
      let? k := key p in
      let? ks := keyed key rest in
      Ok ((k, p) :: ks)
  end.

(** The record returned when anything in the [try] block raised. *)
Definition degraded_record (contract_address : string) : dict :=
  [ ("address", JStr contract_address);
    ("name", JStr "Unknown");
    ("symbol", JStr "???");
    ("price_usd", JInt 0);
    ("liquidity_usd", JInt 0);
    ("volume_h24", JInt 0);
    ("warning", JStr "Data unavailable - check manually on DexScreener") ].

Definition initial_state : State := {| cache := []; requests := [] |}.

(** ** Sample upstream answers *)

Definition token (address name symbol : string) : json :=
  JObj [ ("address", JStr address); ("name", JStr name); ("symbol", JStr symbol);
         ("decimals", JInt 6) ].

Definition market_pair (base quote liquidity price : json) : json :=
  JObj [ ("baseToken", base); ("quoteToken", quote);
         ("liquidity", JObj [("usd", liquidity)]); ("priceUsd", price);
         ("dexId", JStr "raydium"); ("url", JStr "https://dexscreener.com/solana/pool") ].

Definition answer (code : Z) (body : json) : http_outcome :=
  Answered {| status := code; json_body := Ok body |}.

Definition sol_feed (price : json) : json :=
  JObj [ ("data", JObj [ ("SOL", JObj [ ("price", price) ]) ]) ].

(** A world in which the price feed gives [sol] and every other URL
    gives [dex]. *)
Definition world_of (lookup write : Z) (dex sol : http_outcome) : World :=
  {| now_lookup := lookup;
     http := fun url => if String.eqb url SOL_PRICE_URL then sol else dex;
     now_write := write |}.

Definition wsol : json := token "So11111111111111111111111111111111111111112" "Wrapped SOL" "SOL".

(** The end-to-end scenario of the specification: two pairs, of liquidity
    100 and 900; the base token of the second is the queried one. *)
Definition pair_100 : json :=
  market_pair (token "zzz999" "Other" "OTH") (token "abc123" "Token" "TKN")
              (JInt 100) (JStr "0.01").

Definition pair_900 : json :=
  market_pair (token "abc123" "Token" "TKN") wsol (JInt 900) (JStr "0.03").

Definition world_scenario (lookup write : Z) : World :=
  world_of lookup write
           (answer 200 (JObj [("pairs", JArr [pair_100; pair_900])]))
           (answer 200 (sol_feed (JInt 150))).

Definition scenario_record (price buy : float) : dict :=
  [ ("address", JStr "ABC123");
    ("name", JStr "Token");
    ("symbol", JStr "TKN");
    ("decimals", JInt 6);
    ("dex", JStr "raydium");
    ("price_usd", JFloat price);
    ("price_change_h24", JFloat 0);
    ("liquidity_usd", JFloat 900);
    ("volume_h24", JFloat 0);
    ("market_cap", JFloat 0);
    ("fdv", JFloat 0);
    ("buy_1_sol_tokens", JFloat buy);
    ("dexscreener_url", JStr "https://dexscreener.com/solana/pool");
    ("solscan_url", JStr "https://solscan.io/token/ABC123") ].

(** Reference price 150 and a token price of 0.05. *)
Definition world_five_cents : World :=
  world_of 0 1
           (answer 200 (JObj [("pairs",
              JArr [market_pair (token "abc123" "Token" "TKN") wsol
                                (JInt 900) (JStr "0.05")])]))
           (answer 200 (sol_feed (JInt 150))).

(** The provider knows no pair for the address. *)
Definition world_no_pairs (lookup write : Z) : World :=
  world_of lookup write
           (answer 200 (JObj [("pairs", JArr [])]))
           (answer 200 (sol_feed (JInt 150))).

(** The provider cannot be reached. *)
Definition world_down : World :=
  world_of 0 1 (Failed TimeoutError) (Failed TimeoutError).

(** Liquidity 10, 500 and 300, in that order. *)
Definition pair_of_liquidity (name : string) (liquidity : Z) : json :=
  market_pair (token "abc123" name "TKN") wsol (JInt liquidity) (JStr "1").


(** A pair neither side of which is the queried address. *)
Definition pair_of_strangers : json :=
  market_pair (token "aaa111" "Base coin" "BASE") (token "bbb222" "Quote coin" "QUOTE")
              (JInt 50) (JStr "2").

Definition world_strangers : World :=
  world_of 0 1
           (answer 200 (JObj [("pairs", JArr [pair_of_strangers])]))
           (answer 200 (sol_feed (JInt 150))).

(** The price feed answers with status 500 and a well-formed body. *)
Definition world_feed_500 : World :=
  world_of 0 1 (Failed TimeoutError) (answer 500 (sol_feed (JStr "151.5"))).

(** One pair of the answer has a null [liquidity.usd]. *)
Definition pair_null_liquidity : json :=
  market_pair (token "zzz999" "Other" "OTH") wsol JNull (JStr "0.01").

Definition world_null_liquidity : World :=
  world_of 0 1
           (answer 200 (JObj [("pairs", JArr [pair_null_liquidity; pair_900])]))
           (answer 200 (sol_feed (JInt 150))).

(** The end-to-end scenario with the price feed out of reach. *)
Definition world_feed_down (lookup write : Z) : World :=
  world_of lookup write
           (answer 200 (JObj [("pairs", JArr [pair_100; pair_900])]))
           (Failed ClientError).

(** The base token of the only pair has an address and nothing else. *)
Definition pair_bare_token : json :=
  market_pair (JObj [("address", JStr "abc123")]) wsol (JInt 900) (JStr "0.03").

Definition world_bare_token : World :=
  world_of 0 1
           (answer 200 (JObj [("pairs", JArr [pair_bare_token])]))
           (answer 200 (sol_feed (JInt 150))).

(** The only pair has no [dexId]. *)
Definition pair_no_dex : json :=
  JObj [ ("baseToken", token "abc123" "Token" "TKN"); ("quoteToken", wsol);
         ("liquidity", JObj [("usd", JInt 900)]); ("priceUsd", JStr "0.03");
         ("url", JStr "https://dexscreener.com/solana/pool") ].

Definition world_no_dex : World :=
  world_of 0 1
           (answer 200 (JObj [("pairs", JArr [pair_no_dex])]))
           (answer 200 (sol_feed (JInt 150))).

(** [pairs] is a string instead of a list. *)
Definition world_pairs_string : World :=
  world_of 0 1
           (answer 200 (JObj [("pairs", JStr "none")]))
           (answer 200 (sol_feed (JInt 150))).

(** The price feed answers with an integer beyond the range of floats. *)
Definition world_feed_huge : World :=
  world_of 0 1 (Failed TimeoutError) (answer 200 (sol_feed (JInt (10 ^ 400)))).

(** The liquidity of the only pair is an integer beyond the range of
    floats. *)
Definition world_huge_liquidity : World :=
  world_of 0 1
           (answer 200 (JObj [("pairs",
              JArr [market_pair (token "abc123" "Token" "TKN") wsol
                                (JInt (10 ^ 400)) (JStr "0.03")])]))
           (answer 200 (sol_feed (JInt 150))).

Section Aggregator.

(** [s.lower()] on a [str]. *)
Variable lower : string -> string.

(** Lowercasing what is lowercase changes nothing. *)
Hypothesis lower_idempotent : forall s, lower (lower s) = lower s.

(** [float(s)] on a [str]; [None] stands for the [ValueError]. *)
Variable str_to_float : string -> option float.

(** [sorted(..., reverse=True)] on items paired with their keys. *)
Variable py_sorted_reverse : list (float * json) -> list (float * json).

(** On keys none of which is [nan], [sorted] with [reverse=True] is the
    stable descending sort. *)
Hypothesis py_sorted_reverse_stable :
  forall l, (forall x, In x l -> is_nan (fst x) = false) ->
            py_sorted_reverse l = sorted_desc l.

(** [x.lower()]: only a str has the method. *)
Definition py_lower (x : json) : res string :=
  match x with
  | JStr s => Ok (lower s)
  | _ => Raise AttributeError
  end.

Definition py_float (v : json) : res float :=
  match v with
  | JInt n => float_of_int n
  | JFloat f => Ok f
  | JBool b => Ok (if b then 1%float else 0%float)
  | JStr s =>
      match str_to_float s with
      | Some q => Ok q
      | None => Raise (ValueError "could not convert string to float")
      end
  | _ => Raise TypeError
  end.

(** [float(p.get(outer, {}).get(inner, 0))]. *)
Definition nested_float (p : json) (outer inner : string) : res float :=
  let? o := py_get p outer (JObj []) in
  let? v := py_get o inner (JInt 0) in
  py_float v.

(** [float(p.get(field, 0))]. *)
Definition field_float (p : json) (field : string) : res float :=
  let? v := py_get p field (JInt 0) in
  py_float v.

Definition liquidity_key (p : json) : res float := nested_float p "liquidity" "usd".

(** [sorted(pairs, key=liquidity, reverse=True)[0]]. *)
Definition best_pair (pairs : json) : res json :=
  let? items := py_iter pairs in
  let? ks := keyed liquidity_key items in
  match py_sorted_reverse ks with
  | [] => Raise IndexError
  | (_, p) :: _ => Ok p
  end.

Definition get_sol_price (w : World) : M float :=
  try_except
    (resp <- http_get w SOL_PRICE_URL ;;
     data <~ json_body resp ;;
     d <~ subscript data "data" ;;
     sol <~ subscript d "SOL" ;;
     price <~ subscript sol "price" ;;
     lift (py_float price))
    (fun _ => ret 138%float).

(** Lines 57-58: which side of the pair describes the queried token. *)
Definition token_info_of (contract_address : string) (pair : json) : res json :=
  let? base := subscript pair "baseToken" in
  let? base_address := subscript base "address" in
  let? base_lower := py_lower base_address in
  let is_base := String.eqb base_lower (lower contract_address) in
  if is_base then subscript pair "baseToken" else subscript pair "quoteToken".

(** Lines 61-79: the result dict, its fields evaluated in source order. *)
Definition build_result (contract_address : string) (pair token_info : json)
                        (sol_price : float) : res dict :=
  let? price_usd := field_float pair "priceUsd" in
  let tokens_per_sol :=
    if (0 <? price_usd)%float then JFloat (sol_price / price_usd) else JInt 0 in
  let? name := py_get token_info "name" (JStr "Unknown") in
  let? symbol := py_get token_info "symbol" (JStr "???") in
  let? decimals := py_get token_info "decimals" (JInt 9) in
  let? dex := subscript pair "dexId" in
  let? price_change_h24 := nested_float pair "priceChange" "h24" in
  let? liquidity_usd := nested_float pair "liquidity" "usd" in
  let? volume_h24 := nested_float pair "volume" "h24" in
  let? market_cap := field_float pair "marketCap" in
  let? fdv := field_float pair "fdv" in
  let? dexscreener_url := subscript pair "url" in
  Ok [ ("address", JStr contract_address);
       ("name", name);
       ("symbol", symbol);
       ("decimals", decimals);
       ("dex", dex);
       ("price_usd", JFloat price_usd);
       ("price_change_h24", JFloat price_change_h24);
       ("liquidity_usd", JFloat liquidity_usd);
       ("volume_h24", JFloat volume_h24);
       ("market_cap", JFloat market_cap);
       ("fdv", JFloat fdv);
       ("buy_1_sol_tokens", py_round4 tokens_per_sol);
       ("dexscreener_url", dexscreener_url);
       ("solscan_url", JStr ("https://solscan.io/token/" ++ contract_address)%string) ].

(** Lines 39-82: the body of the [try] block. *)
Definition try_block (contract_address : string) (w : World) : M dict :=
  let cache_key := lower contract_address in
  resp <- http_get w (search_url contract_address) ;;
  if negb (status resp =? 200)
  then raise (ValueError "DexScreener returned an error status") else
  data <~ json_body resp ;;
  found <~ py_get data "pairs" JNull ;;
  if negb (truthy found) then raise (ValueError "No pairs found") else
  pairs <~ subscript data "pairs" ;;
  pair <~ best_pair pairs ;;
  token_info <~ token_info_of contract_address pair ;;
  sol_price <- get_sol_price w ;;
  result <~ build_result contract_address pair token_info sol_price ;;
  _ <- cache_store cache_key result (now_write w) ;;
  ret result.

(** Lines 38-94: the [try] statement with its handler. *)
Definition fetch_uncached (contract_address : string) (w : World) : M dict :=
  try_except (try_block contract_address w)
             (fun _ => ret (degraded_record contract_address)).

Definition fetch_token_data (contract_address : string) (w : World) : M dict :=
  let cache_key := lower contract_address in
  cached <- cache_lookup cache_key (now_lookup w) ;;
  match cached with
  | Some hit =>
      if dict_truthy hit then ret hit
      else fetch_uncached contract_address w
  | None => fetch_uncached contract_address w
  end.

(** A sequence of calls, each meeting its own world, run one after the
    other on the shared state. *)
Fixpoint run_history (h : list (string * World)) (s : State) : State :=
  match h with
  | [] => s
  | (a, w) :: rest => run_history rest (snd (fetch_token_data a w s))
  end.

(** ** The pure content of the two functions

    What [get_sol_price] and the [try] block compute, as functions of the
    upstream answers alone; the lemmas below show the monadic code runs to
    exactly these values. *)

Definition sol_price_reading (o : http_outcome) : res float :=
  match o with
  | Failed e => Raise e
  | Answered resp =>
      let? data := json_body resp in
      let? d := subscript data "data" in
      let? sol := subscript d "SOL" in
      let? price := subscript sol "price" in
      py_float price
  end.

Definition sol_price_of (o : http_outcome) : float :=
  match sol_price_reading o with
  | Ok q => q
  | Raise _ => 138%float
  end.

Definition selected_pair (o : http_outcome) : res json :=
  match o with
  | Failed e => Raise e
  | Answered resp =>
      if negb (status resp =? 200)
      then Raise (ValueError "DexScreener returned an error status") else
      let? data := json_body resp in
      let? found := py_get data "pairs" JNull in
      if negb (truthy found) then Raise (ValueError "No pairs found") else
      let? pairs := subscript data "pairs" in
      best_pair pairs
  end.

Definition try_result (contract_address : string) (w : World) : res dict :=
  let? pair := selected_pair (http w (search_url contract_address)) in
  let? token_info := token_info_of contract_address pair in
  build_result contract_address pair token_info (sol_price_of (http w SOL_PRICE_URL)).

(** The requests the [try] block sends. *)
Definition try_requests (contract_address : string) (w : World) : list string :=
  match (let? pair := selected_pair (http w (search_url contract_address)) in
         token_info_of contract_address pair) with
  | Ok _ => [search_url contract_address; SOL_PRICE_URL]
  | Raise _ => [search_url contract_address]
  end.

(** ** Vocabulary of the properties *)

(** The keys of the dict built at lines 64-79. *)
Definition success_keys : list string :=
  [ "address"; "name"; "symbol"; "decimals"; "dex"; "price_usd";
    "price_change_h24"; "liquidity_usd"; "volume_h24"; "market_cap"; "fdv";
    "buy_1_sol_tokens"; "dexscreener_url"; "solscan_url" ].

(** The data model's fields besides [address] and [warning], under the
    keys the code gives them. *)
Definition data_model_fields : list string :=
  [ "name"; "symbol"; "decimals"; "dex"; "price_usd"; "price_change_h24";
    "liquidity_usd"; "volume_h24"; "market_cap"; "fdv"; "buy_1_sol_tokens";
    "dexscreener_url"; "solscan_url" ].

Definition has_key (key : string) (r : dict) : bool :=
  match dict_lookup key r with Some _ => true | None => false end.

Definition every_field_present (r : dict) : Prop :=
  forall key, In key data_model_fields -> has_key key r = true.

(** A record a successful fetch for the cache key [key] can have built. *)
Definition record_ok (key : string) (r : dict) : Prop :=
  dict_keys r = success_keys /\
  exists a, dict_lookup "address" r = Some (JStr a) /\ lower a = key.

Definition cache_wf (c : Cache) : Prop :=
  Forall (fun e => record_ok (e_key e) (e_value e)) c.

(** The entry for [key] exists and has not expired at time [now]. *)
Definition is_live (key : string) (now : Z) (c : Cache) : bool :=
  match cache_find key c with
  | Some e => now <? e_expires e
  | None => false
  end.

(** The market-data query failed, or its answer has no pairs. *)
Definition upstream_unusable (o : http_outcome) : bool :=
  match o with
  | Failed _ => true
  | Answered resp =>
      negb (status resp =? 200) ||
      match json_body resp with
      | Raise _ => true
      | Ok data =>
          match py_get data "pairs" JNull with
          | Ok found => negb (truthy found)
          | Raise _ => true
          end
      end
  end.

(** [p] is an object whose [field] holds [v]. *)
Definition carries (p : json) (field : string) (v : json) : Prop :=
  exists fields, p = JObj fields /\ dict_lookup field fields = Some v.

Definition carries_nested (p : json) (outer inner : string) (v : json) : Prop :=
  exists o, carries p outer o /\ carries o inner v.

Definition unconvertible (v : json) : Prop := exists e, py_float v = Raise e.

(** The answer of the market-data provider is a document whose [pairs]
    is the list [items]. *)
Definition answers_pairs (o : http_outcome) (items : list json) : Prop :=
  exists resp data,
    o = Answered resp /\ status resp = 200 /\ json_body resp = Ok data /\
    carries data "pairs" (JArr items).

Definition is_object (v : json) : bool :=
  match v with JObj _ => true | _ => false end.

Definition is_list (v : json) : bool :=
  match v with JArr _ => true | _ => false end.

(** What a [.get] with a default gives on the fields of an object. *)
Definition field_or (fields : dict) (key : string) (default : json) : json :=
  match dict_lookup key fields with
  | Some v => v
  | None => default
  end.

(** The record was built with [sol] as the price of the reference asset. *)
Definition priced_with (sol : float) (r : dict) : Prop :=
  exists price_usd,
    dict_lookup "price_usd" r = Some (JFloat price_usd) /\
    dict_lookup "buy_1_sol_tokens" r =
    Some (if (0 <? price_usd)%float then JFloat (round4 (sol / price_usd)) else JInt 0).

(** Every cached record was built with the price one of the worlds [ws]
    gave. *)
Definition cache_priced (ws : list World) (c : Cache) : Prop :=
  Forall (fun e => exists w, In w ws /\
                             priced_with (sol_price_of (http w SOL_PRICE_URL)) (e_value e))
         c.

(** The state once the cache lookup of a call is done. *)
Definition after_lookup (contract_address : string) (w : World) (s : State) : State :=
  {| cache := snd (cache_get (lower contract_address) (now_lookup w) (cache s));
     requests := requests s |}.

(** ** Run lemmas *)

Lemma get_sol_price_run (w : World) (s : State) :
  get_sol_price w s = (Ok (sol_price_of (http w SOL_PRICE_URL)), logged s SOL_PRICE_URL).
Proof.
  unfold get_sol_price, try_except, bind, lift, http_get, ret,
    sol_price_of, sol_price_reading, res_bind.
  destruct (http w SOL_PRICE_URL) as [e | resp]; [reflexivity |].
  destruct (json_body resp) as [data | e]; [| reflexivity].
  destruct (subscript data "data") as [d | e]; [| reflexivity].
  destruct (subscript d "SOL") as [sol | e]; [| reflexivity].
  destruct (subscript sol "price") as [price | e]; [| reflexivity].
  destruct (py_float price); reflexivity.
Qed.

Lemma try_block_run (contract_address : string) (w : World) (s : State) :
  try_block contract_address w s =
  match try_result contract_address w with
  | Ok result =>
      (Ok result,
       {| cache := cache_set (lower contract_address) result (now_write w) (cache s);
          requests := requests s ++ try_requests contract_address w |})
  | Raise e =>
      (Raise e,
       {| cache := cache s;
          requests := requests s ++ try_requests contract_address w |})
  end.
Proof.
  unfold try_block, try_result, try_requests, selected_pair, bind, http_get,
    lift, raise, ret, cache_store, res_bind.
  destruct (http w (search_url contract_address)) as [e | resp]; [reflexivity |].
  destruct (negb (status resp =? 200)); [reflexivity |].
  destruct (json_body resp) as [data | e]; [| reflexivity].
  destruct (py_get data "pairs" JNull) as [found | e]; [| reflexivity].
  destruct (negb (truthy found)); [reflexivity |].
  destruct (subscript data "pairs") as [pairs | e]; [| reflexivity].
  destruct (best_pair pairs) as [pair | e]; [| reflexivity].
  destruct (token_info_of contract_address pair) as [token_info | e]; [| reflexivity].
  rewrite get_sol_price_run.
  destruct (build_result contract_address pair token_info _) as [result | e];
    unfold logged; cbn [cache requests]; rewrite <- app_assoc; reflexivity.
Qed.

Lemma fetch_uncached_run (contract_address : string) (w : World) (s : State) :
  fetch_uncached contract_address w s =
  match try_result contract_address w with
  | Ok result =>
      (Ok result,
       {| cache := cache_set (lower contract_address) result (now_write w) (cache s);
          requests := requests s ++ try_requests contract_address w |})
  | Raise _ =>
      (Ok (degraded_record contract_address),
       {| cache := cache s;
          requests := requests s ++ try_requests contract_address w |})
  end.
Proof.
  unfold fetch_uncached, try_except.
  rewrite try_block_run.
  destruct (try_result contract_address w); reflexivity.
Qed.

Lemma try_requests_shape (contract_address : string) (w : World) :
  exists rest, try_requests contract_address w = search_url contract_address :: rest.
Proof.
  unfold try_requests.
  destruct (res_bind _ _); eexists; reflexivity.
Qed.

(** *** The cache *)

Lemma cache_find_some (key : string) (c : Cache) (e : entry) :
  cache_find key c = Some e -> e_key e = key /\ In e c.
Proof.
  induction c as [| x rest IH]; simpl; [discriminate |].
  destruct (String.eqb (e_key x) key) eqn:E.
  - intros [= <-]. apply String.eqb_eq in E. auto.
  - intros H. destruct (IH H). auto.
Qed.

Lemma cache_find_remove (key : string) (c : Cache) :
  cache_find key (cache_remove key c) = None.
Proof.
  unfold cache_remove.
  induction c as [| x rest IH]; simpl; [reflexivity |].
  destruct (String.eqb (e_key x) key) eqn:E; simpl; [assumption |].
  rewrite E. assumption.
Qed.

Lemma cache_find_app_none (key : string) (c1 c2 : Cache) :
  cache_find key c1 = None -> cache_find key (c1 ++ c2) = cache_find key c2.
Proof.
  induction c1 as [| x rest IH]; simpl; [reflexivity |].
  destruct (String.eqb (e_key x) key); [discriminate | assumption].
Qed.

Lemma cache_find_moved (key : string) (c : Cache) (e : entry) :
  e_key e = key -> cache_find key (cache_remove key c ++ [e]) = Some e.
Proof.
  intros <-.
  rewrite cache_find_app_none by apply cache_find_remove.
  simpl. rewrite String.eqb_refl. reflexivity.
Qed.

Lemma cache_find_set (key : string) (value : dict) (now : Z) (c : Cache) :
  cache_find key (cache_set key value now c) =
  Some {| e_key := key; e_value := value; e_expires := now + ttl |}.
Proof.
  unfold cache_set. apply cache_find_moved. reflexivity.
Qed.

Lemma cache_get_spec (key : string) (now : Z) (c : Cache) :
  match cache_get key now c with
  | (Some r, c') =>
      exists e, cache_find key c = Some e /\ e_value e = r /\
                now < e_expires e /\ c' = cache_remove key c ++ [e]
  | (None, c') => c' = c /\ is_live key now c = false
  end.
Proof.
  unfold cache_get, is_live.
  destruct (cache_find key c) as [e |]; [| auto].
  destruct (now <? e_expires e) eqn:E; [| auto].
  exists e. apply Z.ltb_lt in E. auto.
Qed.

(** An entry that is not live stays so as the clock advances. *)
Lemma is_live_later (key : string) (t1 t2 : Z) (c : Cache) :
  t1 <= t2 -> is_live key t1 c = false -> is_live key t2 c = false.
Proof.
  unfold is_live. intros Hle.
  destruct (cache_find key c) as [e |]; [| reflexivity].
  rewrite !Z.ltb_ge. lia.
Qed.

Lemma cache_wf_remove (key : string) (c : Cache) :
  cache_wf c -> cache_wf (cache_remove key c).
Proof.
  unfold cache_wf, cache_remove. rewrite !Forall_forall.
  intros H e He. apply filter_In in He. apply H, He.
Qed.

Lemma cache_wf_expire (now : Z) (c : Cache) :
  cache_wf c -> cache_wf (expire now c).
Proof.
  unfold cache_wf, expire. rewrite !Forall_forall.
  intros H e He. apply filter_In in He. apply H, He.
Qed.

Lemma cache_wf_skipn (n : nat) (c : Cache) :
  cache_wf c -> cache_wf (skipn n c).
Proof.
  unfold cache_wf. rewrite !Forall_forall.
  intros H e He. rewrite <- (firstn_skipn n c) in H.
  apply H, in_or_app. auto.
Qed.

Lemma cache_wf_snoc (c : Cache) (e : entry) :
  cache_wf c -> record_ok (e_key e) (e_value e) -> cache_wf (c ++ [e]).
Proof.
  unfold cache_wf. intros Hc He.
  apply Forall_app. split; [assumption | constructor; [assumption | constructor]].
Qed.

Lemma cache_wf_set (key : string) (value : dict) (now : Z) (c : Cache) :
  cache_wf c -> record_ok key value -> cache_wf (cache_set key value now c).
Proof.
  intros Hc Hr. unfold cache_set.
  apply cache_wf_snoc; [| exact Hr].
  apply cache_wf_remove.
  destruct (cache_find key (expire now c)).
  - apply cache_wf_expire, Hc.
  - apply cache_wf_skipn, cache_wf_expire, Hc.
Qed.

Lemma cache_wf_get (key : string) (now : Z) (c : Cache) :
  cache_wf c -> cache_wf (snd (cache_get key now c)).
Proof.
  intros Hc. pose proof (cache_get_spec key now c) as H.
  destruct (cache_get key now c) as [[r |] c']; simpl.
  - destruct H as (e & Hf & _ & _ & ->).
    apply cache_find_some in Hf. destruct Hf as [_ Hin].
    apply cache_wf_snoc; [apply cache_wf_remove, Hc |].
    unfold cache_wf in Hc. rewrite Forall_forall in Hc. apply Hc, Hin.
  - destruct H as [-> _]. exact Hc.
Qed.

Lemma cache_get_value (key : string) (now : Z) (c : Cache) (r : dict) :
  fst (cache_get key now c) = Some r ->
  exists e, cache_find key c = Some e /\ e_value e = r /\ now < e_expires e /\
            snd (cache_get key now c) = cache_remove key c ++ [e].
Proof.
  pose proof (cache_get_spec key now c) as H.
  destruct (cache_get key now c) as [[r' |] c']; simpl; [| discriminate].
  intros [= <-]. exact H.
Qed.

Lemma cache_get_live (key : string) (now : Z) (c : Cache) (e : entry) :
  cache_find key c = Some e -> now < e_expires e ->
  cache_get key now c = (Some (e_value e), cache_remove key c ++ [e]).
Proof.
  intros Hf Hlt. unfold cache_get. rewrite Hf.
  apply Z.ltb_lt in Hlt. rewrite Hlt. reflexivity.
Qed.

Lemma cache_get_dead (key : string) (now : Z) (c : Cache) :
  is_live key now c = false -> cache_get key now c = (None, c).
Proof.
  unfold is_live, cache_get.
  destruct (cache_find key c) as [e |]; [| reflexivity].
  intros ->. reflexivity.
Qed.

Lemma cache_wf_hit (key : string) (now : Z) (c : Cache) (r : dict) :
  cache_wf c -> fst (cache_get key now c) = Some r -> record_ok key r.
Proof.
  intros Hc Hg. apply cache_get_value in Hg.
  destruct Hg as (e & Hf & <- & _).
  apply cache_find_some in Hf. destruct Hf as [<- Hin].
  unfold cache_wf in Hc. rewrite Forall_forall in Hc. apply Hc, Hin.
Qed.

Lemma cache_get_Forall (P : entry -> Prop) (key : string) (now : Z) (c : Cache) :
  Forall P c -> Forall P (snd (cache_get key now c)).
Proof.
  intros Hc. unfold cache_get.
  destruct (cache_find key c) as [e |] eqn:Hf; [| exact Hc].
  destruct (now <? e_expires e); [| exact Hc]. simpl.
  rewrite Forall_forall in Hc. apply Forall_app. split.
  - apply Forall_forall. intros x Hx. apply filter_In in Hx. apply Hc, Hx.
  - repeat constructor. apply Hc. apply cache_find_some in Hf. apply Hf.
Qed.

Lemma cache_set_Forall (P : entry -> Prop) (key : string) (value : dict)
      (now : Z) (c : Cache) :
  Forall P c ->
  P {| e_key := key; e_value := value; e_expires := now + ttl |} ->
  Forall P (cache_set key value now c).
Proof.
  intros Hc Hnew. unfold cache_set. rewrite Forall_forall in Hc.
  apply Forall_app. split; [| repeat constructor; exact Hnew].
  apply Forall_forall. intros x Hx. apply filter_In in Hx. destruct Hx as [Hx _].
  apply Hc. destruct (cache_find key (expire now c)).
  - apply filter_In in Hx. apply Hx.
  - assert (Hin : In x (expire now c)).
    { rewrite <- (firstn_skipn (List.length (expire now c) + 1 - maxsize) (expire now c)).
      apply in_or_app. right. exact Hx. }
    apply filter_In in Hin. apply Hin.
Qed.

(** *** The record *)

Ltac split_res H :=
  repeat match type of H with
         | context [match ?x with Ok _ => _ | Raise _ => _ end] =>
             let E := fresh "E" in destruct x eqn:E; [| discriminate H]
         end.

Lemma build_result_inv (contract_address : string) (pair token_info : json)
      (sol_price : float) (r : dict) :
  build_result contract_address pair token_info sol_price = Ok r ->
  exists price_usd name symbol decimals dex change liquidity volume cap fdv url,
    field_float pair "priceUsd" = Ok price_usd /\
    py_get token_info "name" (JStr "Unknown") = Ok name /\
    py_get token_info "symbol" (JStr "???") = Ok symbol /\
    py_get token_info "decimals" (JInt 9) = Ok decimals /\
    r = [ ("address", JStr contract_address);
          ("name", name);
          ("symbol", symbol);
          ("decimals", decimals);
          ("dex", dex);
          ("price_usd", JFloat price_usd);
          ("price_change_h24", JFloat change);
          ("liquidity_usd", JFloat liquidity);
          ("volume_h24", JFloat volume);
          ("market_cap", JFloat cap);
          ("fdv", JFloat fdv);
          ("buy_1_sol_tokens",
           py_round4 (if (0 <? price_usd)%float
                      then JFloat (sol_price / price_usd) else JInt 0));
          ("dexscreener_url", url);
          ("solscan_url", JStr ("https://solscan.io/token/" ++ contract_address)%string) ].
Proof.
  unfold build_result, res_bind. intros H.
  split_res H. injection H as <-.
  repeat eexists.
Qed.

Lemma build_result_ok (contract_address : string) (pair token_info : json)
      (sol_price : float) (r : dict) :
  build_result contract_address pair token_info sol_price = Ok r ->
  record_ok (lower contract_address) r.
Proof.
  intros H. apply build_result_inv in H.
  destruct H as (? & ? & ? & ? & ? & ? & ? & ? & ? & ? & ? & _ & _ & _ & _ & ->).
  split; [reflexivity |].
  exists contract_address. split; reflexivity.
Qed.

Lemma try_result_inv (contract_address : string) (w : World) (r : dict) :
  try_result contract_address w = Ok r ->
  exists pair token_info,
    selected_pair (http w (search_url contract_address)) = Ok pair /\
    token_info_of contract_address pair = Ok token_info /\
    build_result contract_address pair token_info
                 (sol_price_of (http w SOL_PRICE_URL)) = Ok r.
Proof.
  unfold try_result, res_bind. intros H.
  destruct (selected_pair _) as [pair |]; [| discriminate].
  destruct (token_info_of contract_address pair) as [token_info |] eqn:E; [| discriminate].
  exists pair, token_info. auto.
Qed.

Lemma try_result_ok (contract_address : string) (w : World) (r : dict) :
  try_result contract_address w = Ok r -> record_ok (lower contract_address) r.
Proof.
  intros H. apply try_result_inv in H. destruct H as (pair & ti & _ & _ & H).
  eapply build_result_ok, H.
Qed.

Lemma record_ok_no_warning (key : string) (r : dict) :
  record_ok key r -> dict_lookup "warning" r = None.
Proof.
  intros [Hk _].
  assert (G : forall d, ~ In "warning" (dict_keys d) -> dict_lookup "warning" d = None).
  { induction d as [| [k v] rest IH]; simpl; [reflexivity |].
    intros Hn. destruct (String.eqb k "warning") eqn:E.
    - apply String.eqb_eq in E. tauto.
    - apply IH. tauto. }
  apply G. rewrite Hk. unfold success_keys. simpl.
  intros H. repeat (destruct H as [H | H]; [discriminate H |]). exact H.
Qed.

Lemma record_ok_truthy (key : string) (r : dict) :
  record_ok key r -> dict_truthy r = true.
Proof.
  intros [Hk _]. destruct r; [discriminate Hk | reflexivity].
Qed.

Lemma keys_present (key : string) (r : dict) :
  In key (dict_keys r) -> has_key key r = true.
Proof.
  unfold has_key.
  induction r as [| [k v] rest IH]; simpl; [contradiction |].
  destruct (String.eqb k key) eqn:E; [reflexivity |].
  intros [-> | Hin]; [rewrite String.eqb_refl in E; discriminate | auto].
Qed.

Lemma degraded_has_warning (contract_address : string) :
  dict_lookup "warning" (degraded_record contract_address) =
  Some (JStr "Data unavailable - check manually on DexScreener").
Proof. reflexivity. Qed.

(** *** One call *)

Lemma fetch_token_data_cases (contract_address : string) (w : World) (s : State) :
  (exists r,
      fst (cache_get (lower contract_address) (now_lookup w) (cache s)) = Some r /\
      dict_truthy r = true /\
      fetch_token_data contract_address w s =
      (Ok r, after_lookup contract_address w s))
  \/
  ((forall r,
      fst (cache_get (lower contract_address) (now_lookup w) (cache s)) = Some r ->
      dict_truthy r = false) /\
   fetch_token_data contract_address w s =
   fetch_uncached contract_address w (after_lookup contract_address w s)).
Proof.
  unfold fetch_token_data, bind, cache_lookup, after_lookup, ret.
  destruct (cache_get (lower contract_address) (now_lookup w) (cache s))
    as [[hit |] c']; simpl.
  - destruct (dict_truthy hit) eqn:T.
    + left. exists hit. auto.
    + right. split; [| reflexivity]. intros r [= <-]. exact T.
  - right. split; [| reflexivity]. intros r [=].
Qed.

(** The call always returns a record. *)
Lemma fetch_token_data_total (contract_address : string) (w : World) (s : State) :
  exists r, fst (fetch_token_data contract_address w s) = Ok r.
Proof.
  destruct (fetch_token_data_cases contract_address w s) as [(r & _ & _ & ->) | [_ ->]].
  - exists r. reflexivity.
  - rewrite fetch_uncached_run.
    destruct (try_result contract_address w) as [r |]; eexists; reflexivity.
Qed.

Lemma fetch_token_data_wf (contract_address : string) (w : World) (s : State) :
  cache_wf (cache s) -> cache_wf (cache (snd (fetch_token_data contract_address w s))).
Proof.
  intros Hc.
  assert (Hl : cache_wf (cache (after_lookup contract_address w s))).
  { unfold after_lookup. simpl. apply cache_wf_get, Hc. }
  destruct (fetch_token_data_cases contract_address w s) as [(r & _ & _ & ->) | [_ ->]].
  - exact Hl.
  - rewrite fetch_uncached_run.
    destruct (try_result contract_address w) as [r |] eqn:E; simpl.
    + apply cache_wf_set; [exact Hl | apply try_result_ok with (w := w), E].
    + exact Hl.
Qed.

Lemma run_history_wf (h : list (string * World)) (s : State) :
  cache_wf (cache s) -> cache_wf (cache (run_history h s)).
Proof.
  revert s. induction h as [| [a w] rest IH]; intros s Hc; simpl.
  - exact Hc.
  - apply IH, fetch_token_data_wf, Hc.
Qed.

Lemma initial_cache_wf : cache_wf [].
Proof. constructor. Qed.

(** A call that sent a request went through the [try] statement. *)
Lemma fresh_fetch (contract_address : string) (w : World) (s : State) :
  requests (snd (fetch_token_data contract_address w s)) <> requests s ->
  fetch_token_data contract_address w s =
  fetch_uncached contract_address w (after_lookup contract_address w s).
Proof.
  destruct (fetch_token_data_cases contract_address w s) as [(r & _ & _ & E) | [_ E]].
  - rewrite E. simpl. intros H. contradiction H. reflexivity.
  - intros _. exact E.
Qed.

Lemma degraded_not_success (contract_address : string) :
  dict_keys (degraded_record contract_address) <> success_keys.
Proof. discriminate. Qed.

(** From a state the process can reach, a call returns the degraded
    record or a record built by a successful fetch for the same key. *)
Lemma fetch_token_data_outcome
      (h : list (string * World)) (contract_address : string) (w : World) :
  exists r,
    fst (fetch_token_data contract_address w (run_history h initial_state)) = Ok r /\
    (r = degraded_record contract_address \/ record_ok (lower contract_address) r).
Proof.
  set (s := run_history h initial_state).
  assert (Hs : cache_wf (cache s)) by apply run_history_wf, initial_cache_wf.
  destruct (fetch_token_data_cases contract_address w s) as [(r & Hg & _ & ->) | [_ ->]].
  - exists r. split; [reflexivity |].
    right. eapply cache_wf_hit; eassumption.
  - rewrite fetch_uncached_run.
    destruct (try_result contract_address w) as [r |] eqn:E.
    + exists r. split; [reflexivity |]. right. apply try_result_ok with (w := w), E.
    + exists (degraded_record contract_address). split; [reflexivity | left; reflexivity].
Qed.

Lemma unusable_raises (o : http_outcome) :
  upstream_unusable o = true -> exists e, selected_pair o = Raise e.
Proof.
  unfold upstream_unusable, selected_pair, res_bind.
  destruct o as [e | resp]; [eauto |].
  destruct (negb (status resp =? 200)); simpl; [eauto |].
  destruct (json_body resp) as [data | e]; [| eauto].
  destruct (py_get data "pairs" JNull) as [found | e]; [| eauto].
  intros ->. eauto.
Qed.

Lemma unusable_try_result (contract_address : string) (w : World) :
  upstream_unusable (http w (search_url contract_address)) = true ->
  exists e, try_result contract_address w = Raise e.
Proof.
  intros H. apply unusable_raises in H. destruct H as [e H].
  exists e. unfold try_result. rewrite H. reflexivity.
Qed.

(** A call that finds a live, non-empty record under its key returns it
    and sends nothing. *)
Lemma hit_run (contract_address : string) (w : World) (s : State) (e : entry) :
  cache_find (lower contract_address) (cache s) = Some e ->
  now_lookup w < e_expires e ->
  dict_truthy (e_value e) = true ->
  fetch_token_data contract_address w s =
  (Ok (e_value e), after_lookup contract_address w s).
Proof.
  intros Hf Hlt Ht.
  unfold fetch_token_data, bind, cache_lookup, after_lookup, ret.
  rewrite (cache_get_live _ _ _ _ Hf Hlt). simpl. rewrite Ht. reflexivity.
Qed.

(** *** The sort *)

Lemma ext_leb_refl (a : ext) : ext_leb a a = true.
Proof. destruct a; simpl; auto. apply Qle_bool_iff, Qle_refl. Qed.

Lemma ext_leb_total (a b : ext) : ext_leb a b = false -> ext_leb b a = true.
Proof.
  destruct a, b; simpl; try discriminate; auto.
  intros H. apply Qle_bool_iff. apply Qlt_le_weak, Qnot_le_lt.
  intros Hle. apply Qle_bool_iff in Hle. congruence.
Qed.

Lemma ext_leb_trans (a b c : ext) :
  ext_leb a b = true -> ext_leb b c = true -> ext_leb a c = true.
Proof.
  destruct a, b, c; simpl; try discriminate; auto.
  rewrite !Qle_bool_iff. apply Qle_trans.
Qed.

(** [a < b] and [b <= c] give [a < c]. *)
Lemma ext_ltb_leb_trans (a b c : ext) :
  ext_leb b a = false -> ext_leb b c = true -> ext_leb c a = false.
Proof.
  destruct a, b, c; simpl; try discriminate; auto.
  intros Hba Hbc. apply Qle_bool_iff in Hbc.
  destruct (Qle_bool q1 q) eqn:E; [| reflexivity].
  apply Qle_bool_iff in E.
  assert (F : Qle_bool q0 q = true) by (apply Qle_bool_iff; eapply Qle_trans; eassumption).
  congruence.
Qed.

Lemma float_value_not_nan (f : float) :
  is_nan f = false -> exists a, float_value f = Some a.
Proof.
  intros H. unfold float_value, Prim2SF. rewrite H.
  destruct (is_zero f); [eexists; reflexivity |].
  destruct (is_infinity f); [eexists; reflexivity |].
  destruct (Z.frexp f) as [r ex].
  destruct (shr_fexp prec emax _ _ _) as [mrs e'].
  destruct (shr_m mrs); eexists; reflexivity.
Qed.

Lemma float_le_refl (x : float) : is_nan x = false -> float_le x x.
Proof.
  intros H. destruct (float_value_not_nan x H) as [a Ha].
  exists a, a. auto using ext_leb_refl.
Qed.

Lemma float_lt_le (x y : float) : float_lt x y -> float_le x y.
Proof.
  intros (a & b & Ha & Hb & H). exists a, b. auto using ext_leb_total.
Qed.

Lemma float_le_trans (x y z : float) : float_le x y -> float_le y z -> float_le x z.
Proof.
  intros (a & b & Ha & Hb & H) (b' & c & Hb' & Hc & H').
  rewrite Hb in Hb'. injection Hb' as <-.
  exists a, c. eauto using ext_leb_trans.
Qed.

Lemma float_lt_le_trans (x y z : float) : float_lt x y -> float_le y z -> float_lt x z.
Proof.
  intros (a & b & Ha & Hb & H) (b' & c & Hb' & Hc & H').
  rewrite Hb in Hb'. injection Hb' as <-.
  exists a, c. eauto using ext_ltb_leb_trans.
Qed.

Lemma value_leb_true (x y : float) : value_leb x y = true -> float_le x y.
Proof.
  unfold value_leb.
  destruct (float_value x) as [a |] eqn:Ha; [| discriminate].
  destruct (float_value y) as [b |] eqn:Hb; [| discriminate].
  intros H. exists a, b. auto.
Qed.

Lemma value_leb_false (x y : float) :
  is_nan x = false -> is_nan y = false -> value_leb x y = false -> float_lt y x.
Proof.
  intros Hx Hy. unfold value_leb.
  destruct (float_value_not_nan x Hx) as [a Ha].
  destruct (float_value_not_nan y Hy) as [b Hb].
  rewrite Ha, Hb. intros H. exists b, a. auto.
Qed.

(** The head of the sorted list is the first item of greatest key. *)
Lemma sorted_desc_head (l : list (float * json)) :
  l <> [] ->
  (forall x, In x l -> is_nan (fst x) = false) ->
  exists before x after tl,
    sorted_desc l = x :: tl /\ l = before ++ x :: after /\
    (forall y, In y before -> float_lt (fst y) (fst x)) /\
    (forall y, In y after -> float_le (fst y) (fst x)).
Proof.
  induction l as [| a rest IH]; [congruence |]. intros _ Hnan.
  destruct rest as [| b rest'].
  - exists [], a, [], []. simpl. repeat split; try contradiction; reflexivity.
  - destruct IH as (before & x & after & tl & Hs & Hl & Hb & Ha);
      [discriminate | intros y Hy; apply Hnan; right; exact Hy |].
    assert (Hxin : In x (b :: rest')).
    { rewrite Hl. apply in_or_app. right. left. reflexivity. }
    change (sorted_desc (a :: b :: rest')) with (insert_desc a (sorted_desc (b :: rest'))).
    rewrite Hs. simpl.
    destruct (value_leb (fst x) (fst a)) eqn:E.
    + apply value_leb_true in E.
      exists [], a, (b :: rest'), (x :: tl).
      split; [reflexivity |]. split; [reflexivity |].
      split; [contradiction |].
      intros y Hy. rewrite Hl in Hy. apply in_app_or in Hy.
      destruct Hy as [Hy | [<- | Hy]].
      * eapply float_le_trans; [apply float_lt_le, Hb, Hy | exact E].
      * exact E.
      * eapply float_le_trans; [apply Ha, Hy | exact E].
    + apply value_leb_false in E;
        [| apply Hnan; right; exact Hxin | apply Hnan; left; reflexivity].
      exists (a :: before), x, after, (insert_desc a tl).
      split; [reflexivity |]. split; [rewrite Hl; reflexivity |].
      split; [| exact Ha].
      intros y [<- | Hy]; [exact E | apply Hb, Hy].
Qed.

Lemma keyed_inv (key : json -> res float) (items : list json) (ks : list (float * json)) :
  keyed key items = Ok ks ->
  map snd ks = items /\ forall y, In y ks -> key (snd y) = Ok (fst y).
Proof.
  revert ks. induction items as [| p rest IH]; simpl; intros ks H.
  - injection H as <-. split; [reflexivity | contradiction].
  - unfold res_bind in H.
    destruct (key p) as [k |] eqn:Ek; [| discriminate].
    destruct (keyed key rest) as [ks' |]; [| discriminate].
    injection H as <-. destruct (IH ks' eq_refl) as [Hm Hk].
    split; [simpl; congruence |].
    intros y [<- | Hy]; [exact Ek | apply Hk, Hy].
Qed.


Lemma keyed_fails (key : json -> res float) (items : list json) (p : json) (e : exn) :
  In p items -> key p = Raise e -> exists e', keyed key items = Raise e'.
Proof.
  induction items as [| q rest IH]; simpl; [contradiction |].
  intros [-> | Hin] Hp.
  - rewrite Hp. eexists; reflexivity.
  - unfold res_bind. destruct (key q); [| eexists; reflexivity].
    destruct (IH Hin Hp) as [e' ->]. eexists; reflexivity.
Qed.

(** *** A fresh, successful call *)

Lemma fresh_success (contract_address : string) (w : World) (s : State) (r : dict) :
  requests (snd (fetch_token_data contract_address w s)) <> requests s ->
  fst (fetch_token_data contract_address w s) = Ok r ->
  dict_lookup "warning" r = None ->
  try_result contract_address w = Ok r.
Proof.
  intros Hreq Hr Hw.
  rewrite (fresh_fetch _ _ _ Hreq), fetch_uncached_run in Hr.
  destruct (try_result contract_address w) as [r' |]; simpl in Hr.
  - congruence.
  - injection Hr as <-. discriminate Hw.
Qed.

Lemma fresh_failure (contract_address : string) (w : World) (s : State) (e : exn) :
  requests (snd (fetch_token_data contract_address w s)) <> requests s ->
  try_result contract_address w = Raise e ->
  fst (fetch_token_data contract_address w s) = Ok (degraded_record contract_address).
Proof.
  intros Hreq He.
  rewrite (fresh_fetch _ _ _ Hreq), fetch_uncached_run, He. reflexivity.
Qed.

Lemma token_info_of_inv (contract_address : string) (pair token_info : json) :
  token_info_of contract_address pair = Ok token_info ->
  exists base base_address,
    subscript pair "baseToken" = Ok base /\
    subscript base "address" = Ok (JStr base_address) /\
    if String.eqb (lower base_address) (lower contract_address)
    then token_info = base
    else subscript pair "quoteToken" = Ok token_info.
Proof.
  unfold token_info_of, res_bind. intros H.
  destruct (subscript pair "baseToken") as [base |] eqn:Eb; [| discriminate].
  destruct (subscript base "address") as [v |] eqn:Ea; [| discriminate].
  destruct v as [| | | | base_address | |]; try discriminate. simpl in H.
  exists base, base_address.
  split; [assumption || reflexivity |]. split; [assumption || reflexivity |].
  destruct (String.eqb (lower base_address) (lower contract_address)).
  - congruence.
  - exact H.
Qed.

(** *** Numbers that do not convert *)

Lemma field_float_fails (p : json) (field : string) (v : json) :
  carries p field v -> unconvertible v -> exists e, field_float p field = Raise e.
Proof.
  intros (fields & -> & Hl) [e He]. exists e.
  unfold field_float, py_get, res_bind. rewrite Hl. exact He.
Qed.

Lemma nested_float_fails (p : json) (outer inner : string) (v : json) :
  carries_nested p outer inner v -> unconvertible v ->
  exists e, nested_float p outer inner = Raise e.
Proof.
  intros (o & (fields & -> & Hl) & (fields' & -> & Hl')) [e He]. exists e.
  unfold nested_float, py_get, res_bind. rewrite Hl, Hl'. exact He.
Qed.

Ltac all_branches_raise :=
  repeat match goal with
         | |- context [match ?x with Ok _ => _ | Raise _ => _ end] => destruct x
         end;
  eexists; reflexivity.

Lemma build_result_fails (contract_address : string) (pair token_info : json)
      (sol_price : float) (v : json) :
  unconvertible v ->
  carries pair "priceUsd" v \/ carries_nested pair "priceChange" "h24" v \/
  carries_nested pair "volume" "h24" v \/ carries pair "marketCap" v \/
  carries pair "fdv" v ->
  exists e, build_result contract_address pair token_info sol_price = Raise e.
Proof.
  intros Hv H. unfold build_result, res_bind.
  destruct H as [H | [H | [H | [H | H]]]].
  - destruct (field_float_fails _ _ _ H Hv) as [e ->]. eexists; reflexivity.
  - destruct (nested_float_fails _ _ _ _ H Hv) as [e ->]. all_branches_raise.
  - destruct (nested_float_fails _ _ _ _ H Hv) as [e ->]. all_branches_raise.
  - destruct (field_float_fails _ _ _ H Hv) as [e ->]. all_branches_raise.
  - destruct (field_float_fails _ _ _ H Hv) as [e ->]. all_branches_raise.
Qed.

Lemma answered_pairs_selected (o : http_outcome) (items : list json) :
  answers_pairs o items ->
  selected_pair o = best_pair (JArr items) \/ exists e, selected_pair o = Raise e.
Proof.
  intros (resp & data & -> & Hst & Hb & (fields & -> & Hl)).
  unfold selected_pair, res_bind, py_get, subscript.
  rewrite Hst, Hb, Hl. simpl.
  destruct items; simpl; [right; eexists; reflexivity | left; reflexivity].
Qed.

(** *** Rounding and the derived quantity *)

Lemma round_half_even_close (q : Q) :
  (Qabs (q - inject_Z (round_half_even q)) <= 1 # 2)%Q.
Proof.
  destruct q as [n d]. unfold round_half_even. cbn [Qnum Qden].
  pose proof (Z.div_mod n (Zpos d) ltac:(discriminate)) as Hdm.
  pose proof (Z.mod_pos_bound n (Zpos d) ltac:(reflexivity)) as Hb.
  set (fl := n / Zpos d) in *. set (r := n mod Zpos d) in *.
  assert (G : forall z : Z, 2 * Z.abs (n - z * Zpos d) <= Zpos d ->
                            (Qabs ((n # d) - inject_Z z) <= 1 # 2)%Q).
  { intros z Hz. apply Qabs_Qle_condition.
    unfold Qle, Qminus, Qplus, Qopp, inject_Z. simpl.
    rewrite !Pos.mul_1_r. change (Z.neg d) with (- Z.pos d). split; lia. }
  assert (H0 : n - fl * Zpos d = r) by lia.
  assert (H1 : n - (fl + 1) * Zpos d = r - Zpos d) by lia.
  destruct (2 * r <? Zpos d) eqn:E1;
    [apply Z.ltb_lt in E1; apply G; rewrite H0; lia |].
  apply Z.ltb_ge in E1.
  destruct (Zpos d <? 2 * r) eqn:E2;
    [apply Z.ltb_lt in E2; apply G; rewrite H1; lia |].
  apply Z.ltb_ge in E2.
  destruct (Z.even fl); apply G; [rewrite H0 | rewrite H1]; lia.
Qed.

(** [round4] on a finite float: the integer nearest to [10^4] times its
    magnitude, ties to even, over [10^4], with the sign kept. *)
Lemma round4_finite (x : float) (sg : bool) (m : positive) (e : Z) :
  Prim2SF x = S754_finite sg m e ->
  exists n : Z,
    (Qabs (magnitude m e * (10000 # 1) - inject_Z n) <= 1 # 2)%Q /\
    round4 x =
    if n <? 2 ^ 53
    then (if sg then (- (nearest_float n / 10000))%float
          else (nearest_float n / 10000)%float)
    else x.
Proof.
  intros H. exists (round_half_even (magnitude m e * (10000 # 1))).
  split; [apply round_half_even_close |].
  unfold round4. rewrite H. reflexivity.
Qed.

Lemma try_result_priced (contract_address : string) (w : World) (r : dict) :
  try_result contract_address w = Ok r ->
  priced_with (sol_price_of (http w SOL_PRICE_URL)) r.
Proof.
  intros T. apply try_result_inv in T. destruct T as (pair & side & _ & _ & Hb).
  apply build_result_inv in Hb.
  destruct Hb as (price_usd & ? & ? & ? & ? & ? & ? & ? & ? & ? & ?
                  & _ & _ & _ & _ & ->).
  exists price_usd. split; [reflexivity |].
  cbn [dict_lookup String.eqb Ascii.eqb Bool.eqb].
  destruct (0 <? price_usd)%float; reflexivity.
Qed.

Lemma cache_priced_more (ws ws' : list World) (c : Cache) :
  incl ws ws' -> cache_priced ws c -> cache_priced ws' c.
Proof.
  intros Hi. unfold cache_priced. apply Forall_impl.
  intros e (w & Hw & Hp). exists w. auto.
Qed.

Lemma fetch_token_data_priced (contract_address : string) (w : World) (s : State)
      (ws : list World) :
  cache_priced ws (cache s) ->
  cache_priced (w :: ws) (cache (snd (fetch_token_data contract_address w s))).
Proof.
  intros Hc. apply (cache_priced_more ws (w :: ws)) in Hc; [| apply incl_tl, incl_refl].
  assert (Hl : cache_priced (w :: ws) (cache (after_lookup contract_address w s))).
  { unfold after_lookup. simpl. apply cache_get_Forall, Hc. }
  destruct (fetch_token_data_cases contract_address w s) as [(r & _ & _ & ->) | [_ ->]].
  - exact Hl.
  - rewrite fetch_uncached_run.
    destruct (try_result contract_address w) as [r |] eqn:E; simpl; [| exact Hl].
    apply cache_set_Forall; [exact Hl |].
    exists w. split; [left; reflexivity | eapply try_result_priced, E].
Qed.

Lemma run_history_priced (h : list (string * World)) (s : State) (ws ws' : list World) :
  incl (map snd h ++ ws) ws' ->
  cache_priced ws (cache s) ->
  cache_priced ws' (cache (run_history h s)).
Proof.
  revert s ws. induction h as [| [a w] rest IH]; intros s ws Hi Hc; simpl in *.
  - eapply cache_priced_more; eassumption.
  - apply (IH _ (w :: ws)); [| apply fetch_token_data_priced, Hc].
    intros x Hx. apply Hi. apply in_app_or in Hx.
    destruct Hx as [Hx | [<- | Hx]].
    + right. apply in_or_app. auto.
    + left. reflexivity.
    + right. apply in_or_app. auto.
Qed.

(** ** Properties of the specification *)

(** C1. For every address and every state the process can be in,
    [fetch_token_data] returns a record and never raises; the record is
    the degraded one or a success record, and it carries a [warning]
    exactly when it is the degraded one. *)
Theorem fetch_token_data_never_raises
        (h : list (string * World)) (contract_address : string) (w : World) :
  let s := run_history h initial_state in
  exists r,
    fst (fetch_token_data contract_address w s) = Ok r /\
    (r = degraded_record contract_address \/ dict_keys r = success_keys) /\
    (dict_lookup "warning" r <> None <-> r = degraded_record contract_address).
Proof.
  intros s.
  destruct (fetch_token_data_outcome h contract_address w) as (r & Hr & [-> | Hok]).
  - exists (degraded_record contract_address). split; [exact Hr |].
    split; [left; reflexivity |].
    split; [reflexivity | discriminate].
  - exists r. split; [exact Hr |].
    split; [right; apply Hok |].
    rewrite (record_ok_no_warning _ _ Hok). split; [congruence |].
    intros ->. destruct Hok as [Hk _]. now apply degraded_not_success in Hk.
Qed.

(** C2 (amended). Every record [fetch_token_data] returns is whole in one
    of two ways: a success record with the fourteen keys of the result
    dict and no warning, or the degraded record, which holds the address
    as given, the sentinel name and symbol, zero for [price_usd],
    [liquidity_usd] and [volume_h24], a non-empty warning, and none of the
    other fields. *)
Theorem fetch_token_data_record_shape
        (h : list (string * World)) (contract_address : string) (w : World) :
  let s := run_history h initial_state in
  exists r,
    fst (fetch_token_data contract_address w s) = Ok r /\
    ((dict_keys r = success_keys /\ every_field_present r /\
      dict_lookup "warning" r = None)
     \/
     (dict_keys r =
        ["address"; "name"; "symbol"; "price_usd"; "liquidity_usd"; "volume_h24"; "warning"] /\
      dict_lookup "address" r = Some (JStr contract_address) /\
      dict_lookup "name" r = Some (JStr "Unknown") /\
      dict_lookup "symbol" r = Some (JStr "???") /\
      dict_lookup "price_usd" r = Some (JInt 0) /\
      dict_lookup "liquidity_usd" r = Some (JInt 0) /\
      dict_lookup "volume_h24" r = Some (JInt 0) /\
      (exists msg, dict_lookup "warning" r = Some (JStr msg) /\ msg <> "") /\
      forall key,
        In key ["decimals"; "dex"; "price_change_h24"; "market_cap"; "fdv";
                "buy_1_sol_tokens"; "dexscreener_url"; "solscan_url"] ->
        has_key key r = false)).
Proof.
  intros s.
  destruct (fetch_token_data_outcome h contract_address w) as (r & Hr & [-> | Hok]).
  - exists (degraded_record contract_address). split; [exact Hr |]. right.
    repeat (split; [reflexivity |]).
    split; [eexists; split; [reflexivity | discriminate] |].
    intros key Hin. simpl in Hin.
    repeat (destruct Hin as [<- | Hin]; [reflexivity |]). contradiction.
  - exists r. split; [exact Hr |]. left.
    split; [apply Hok |]. split.
    + intros key Hin. apply keys_present. destruct Hok as [-> _].
      unfold data_model_fields in Hin. unfold success_keys. simpl in *. tauto.
    + eapply record_ok_no_warning, Hok.
Qed.

(** C3. When the market-data query of a call fails or answers with no
    pairs, the call returns the degraded record, whose warning is not
    empty, and writes nothing to the cache; the next call for the same
    address queries the provider again. *)
Theorem degraded_record_not_cached
        (contract_address : string) (w1 w2 : World) (s : State) :
  upstream_unusable (http w1 (search_url contract_address)) = true ->
  requests (snd (fetch_token_data contract_address w1 s)) <> requests s ->
  now_lookup w1 <= now_lookup w2 ->
  let s1 := snd (fetch_token_data contract_address w1 s) in
  fst (fetch_token_data contract_address w1 s) = Ok (degraded_record contract_address) /\
  (exists msg, dict_lookup "warning" (degraded_record contract_address) = Some (JStr msg) /\
               msg <> "") /\
  cache s1 = cache (after_lookup contract_address w1 s) /\
  exists rest,
    requests (snd (fetch_token_data contract_address w2 s1)) =
    requests s1 ++ search_url contract_address :: rest.
Proof.
  intros Hbad Hreq Hle s1.
  pose proof (fresh_fetch _ _ _ Hreq) as E1.
  destruct (unusable_try_result _ _ Hbad) as [e He].
  assert (Hs1 : s1 = {| cache := cache (after_lookup contract_address w1 s);
                        requests := requests s ++ try_requests contract_address w1 |}).
  { unfold s1. rewrite E1, fetch_uncached_run, He. reflexivity. }
  split; [rewrite E1, fetch_uncached_run, He; reflexivity |].
  split; [eexists; split; [reflexivity | discriminate] |].
  split; [rewrite Hs1; reflexivity |].
  destruct (fetch_token_data_cases contract_address w2 s1) as [(r & Hg & Ht & _) | [_ ->]].
  - (* the second call cannot be a hit *)
    exfalso. rewrite Hs1 in Hg. simpl in Hg.
    destruct (fetch_token_data_cases contract_address w1 s) as [(r1 & _ & _ & E) | [Hfalsy _]].
    { rewrite E in Hreq. simpl in Hreq. now apply Hreq. }
    destruct (fst (cache_get (lower contract_address) (now_lookup w1) (cache s)))
      as [r0 |] eqn:G1.
    + destruct (cache_get_value _ _ _ _ G1) as (e0 & Hf0 & Hv0 & _ & Hc0).
      rewrite Hc0 in Hg.
      destruct (cache_get_value _ _ _ _ Hg) as (e2 & Hf2 & Hv2 & _).
      rewrite cache_find_moved in Hf2
        by (apply cache_find_some in Hf0; apply Hf0).
      injection Hf2 as <-.
      rewrite <- Hv2, Hv0, (Hfalsy r0 eq_refl) in Ht. discriminate.
    + pose proof (cache_get_spec (lower contract_address) (now_lookup w1) (cache s)) as Sp.
      destruct (cache_get (lower contract_address) (now_lookup w1) (cache s))
        as [[r0 |] c'] eqn:G; simpl in G1; [discriminate |].
      destruct Sp as [-> Hdead]. simpl in Hg.
      rewrite (cache_get_dead _ _ _ (is_live_later _ _ _ _ Hle Hdead)) in Hg.
      discriminate.
  - rewrite fetch_uncached_run.
    destruct (try_requests_shape contract_address w2) as [rest ->].
    exists rest. destruct (try_result contract_address w2); reflexivity.
Qed.

(** C4 (amended). When a call returns a record without a warning, fresh or
    from the cache, a second call for the same address made while the
    entry has not expired returns the same record and sends no request. *)
Theorem cache_hit_idempotent
        (contract_address : string) (w1 w2 : World) (s : State) (r1 : dict) :
  fst (fetch_token_data contract_address w1 s) = Ok r1 ->
  dict_lookup "warning" r1 = None ->
  is_live (lower contract_address) (now_lookup w2)
          (cache (snd (fetch_token_data contract_address w1 s))) = true ->
  let s1 := snd (fetch_token_data contract_address w1 s) in
  fst (fetch_token_data contract_address w2 s1) = Ok r1 /\
  requests (snd (fetch_token_data contract_address w2 s1)) = requests s1.
Proof.
  intros Hr Hw Hlive s1.
  assert (G : exists e, cache_find (lower contract_address) (cache s1) = Some e /\
                        e_value e = r1 /\ dict_truthy r1 = true).
  { unfold s1.
    destruct (fetch_token_data_cases contract_address w1 s) as [(r & Hg & Ht & E) | [_ E]].
    - rewrite E in Hr |- *. simpl in Hr. injection Hr as <-.
      destruct (cache_get_value _ _ _ _ Hg) as (e & Hf & Hv & _ & Hc).
      exists e. unfold after_lookup. simpl. rewrite Hc.
      split; [apply cache_find_moved; apply cache_find_some in Hf; apply Hf | auto].
    - rewrite E, fetch_uncached_run in Hr |- *.
      destruct (try_result contract_address w1) as [r |] eqn:T; simpl in Hr.
      + injection Hr as <-. simpl. rewrite cache_find_set.
        eexists. split; [reflexivity |]. split; [reflexivity |].
        eapply record_ok_truthy, try_result_ok, T.
      + injection Hr as <-. discriminate Hw. }
  destruct G as (e & Hf & <- & Ht).
  fold s1 in Hlive. unfold is_live in Hlive. rewrite Hf in Hlive.
  apply Z.ltb_lt in Hlive.
  rewrite (hit_run _ _ _ _ Hf Hlive Ht). split; reflexivity.
Qed.

(** The window of C4 for a fresh record: it stays live for [ttl] after
    the time of its write. *)
Lemma fresh_record_is_live
      (contract_address : string) (w : World) (s : State) (r : dict) (now : Z) :
  requests (snd (fetch_token_data contract_address w s)) <> requests s ->
  fst (fetch_token_data contract_address w s) = Ok r ->
  dict_lookup "warning" r = None ->
  now < now_write w + ttl ->
  is_live (lower contract_address) now
          (cache (snd (fetch_token_data contract_address w s))) = true.
Proof.
  intros Hreq Hr Hw Hlt.
  rewrite (fresh_fetch _ _ _ Hreq) in Hr |- *.
  rewrite fetch_uncached_run in Hr |- *.
  destruct (try_result contract_address w) as [r' |]; simpl in Hr |- *.
  - unfold is_live. rewrite cache_find_set. simpl. apply Z.ltb_lt, Hlt.
  - injection Hr as <-. discriminate Hw.
Qed.


(** C6 (amended). The queried address is compared, lowercased on both
    sides, with the address of the base token only.  When they are equal
    the name, symbol and decimals of the record come from the base token;
    otherwise they come from the quote token, whatever its address, so an
    address that matches neither side is described by the quote side. *)
Theorem token_side_decided_by_base
        (contract_address : string) (w : World) (s : State) (r : dict) (pair : json) :
  requests (snd (fetch_token_data contract_address w s)) <> requests s ->
  fst (fetch_token_data contract_address w s) = Ok r ->
  dict_lookup "warning" r = None ->
  selected_pair (http w (search_url contract_address)) = Ok pair ->
  exists base base_address side name symbol decimals,
    subscript pair "baseToken" = Ok base /\
    subscript base "address" = Ok (JStr base_address) /\
    (if String.eqb (lower base_address) (lower contract_address)
     then side = base
     else subscript pair "quoteToken" = Ok side) /\
    py_get side "name" (JStr "Unknown") = Ok name /\
    py_get side "symbol" (JStr "???") = Ok symbol /\
    py_get side "decimals" (JInt 9) = Ok decimals /\
    dict_lookup "name" r = Some name /\
    dict_lookup "symbol" r = Some symbol /\
    dict_lookup "decimals" r = Some decimals.
Proof.
  intros Hreq Hr Hw Hsel.
  pose proof (fresh_success _ _ _ _ Hreq Hr Hw) as T.
  apply try_result_inv in T. destruct T as (pair' & side & Hsel' & Hti & Hb).
  rewrite Hsel in Hsel'. injection Hsel' as <-.
  apply token_info_of_inv in Hti. destruct Hti as (base & base_address & Hbase & Haddr & Hside).
  apply build_result_inv in Hb.
  destruct Hb as (price & name & symbol & decimals & ? & ? & ? & ? & ? & ? & ?
                  & _ & Hn & Hsy & Hd & ->).
  exists base, base_address, side, name, symbol, decimals.
  repeat (split; [assumption || reflexivity |]). reflexivity.
Qed.

(** C7. Every record without a warning that a call returns, fresh or from
    the cache, was built with the price [sol] that [get_sol_price] gave
    in the call that built it: with [price_usd] the price in the record,
    [buy_1_sol_tokens] is [round(sol / price_usd, 4)] when [price_usd] is
    positive and the integer 0 otherwise.  The rounding is to four
    decimal places: for a finite quotient the result is the integer
    nearest to [10^4] times its magnitude, ties to even, over [10^4]. *)
Theorem buy_one_unit_tokens_value
        (h : list (string * World)) (contract_address : string) (w : World) (r : dict) :
  let s := run_history h initial_state in
  fst (fetch_token_data contract_address w s) = Ok r ->
  dict_lookup "warning" r = None ->
  exists w' sol price_usd,
    In w' (w :: map snd h) /\
    (requests (snd (fetch_token_data contract_address w s)) <> requests s -> w' = w) /\
    fst (get_sol_price w' initial_state) = Ok sol /\
    dict_lookup "price_usd" r = Some (JFloat price_usd) /\
    ((0 <? price_usd)%float = true ->
     dict_lookup "buy_1_sol_tokens" r = Some (JFloat (round4 (sol / price_usd)))) /\
    ((0 <? price_usd)%float = false ->
     dict_lookup "buy_1_sol_tokens" r = Some (JInt 0)) /\
    (forall sg m e,
        Prim2SF (sol / price_usd) = S754_finite sg m e ->
        exists n : Z,
          (Qabs (magnitude m e * (10000 # 1) - inject_Z n) <= 1 # 2)%Q /\
          round4 (sol / price_usd) =
          if n <? 2 ^ 53
          then (if sg then (- (nearest_float n / 10000))%float
                else (nearest_float n / 10000)%float)
          else (sol / price_usd)%float).
Proof.
  intros s Hr Hw.
  assert (G : exists w', In w' (w :: map snd h) /\
                         (requests (snd (fetch_token_data contract_address w s))
                          <> requests s -> w' = w) /\
                         priced_with (sol_price_of (http w' SOL_PRICE_URL)) r).
  { destruct (fetch_token_data_cases contract_address w s) as [(r' & Hg & _ & E) | [_ E]].
    - rewrite E in Hr |- *. simpl in Hr. injection Hr as <-.
      assert (Hc : cache_priced (map snd h) (cache s)).
      { apply (run_history_priced h initial_state [] (map snd h)).
        - rewrite app_nil_r. apply incl_refl.
        - constructor. }
      destruct (cache_get_value _ _ _ _ Hg) as (e & Hf & <- & _).
      apply cache_find_some in Hf. destruct Hf as [_ Hin].
      unfold cache_priced in Hc. rewrite Forall_forall in Hc.
      destruct (Hc e Hin) as (w' & Hw' & Hp).
      exists w'. split; [right; exact Hw' |]. split; [| exact Hp].
      simpl. intros Hneq. contradiction Hneq. reflexivity.
    - rewrite E, fetch_uncached_run in Hr.
      destruct (try_result contract_address w) as [r' |] eqn:T; simpl in Hr.
      + injection Hr as <-. exists w.
        split; [left; reflexivity |]. split; [reflexivity |].
        eapply try_result_priced, T.
      + injection Hr as <-. discriminate Hw. }
  destruct G as (w' & Hin & Hfresh & (price_usd & Hp & Hb)).
  exists w', (sol_price_of (http w' SOL_PRICE_URL)), price_usd.
  split; [exact Hin |]. split; [exact Hfresh |].
  split; [rewrite get_sol_price_run; reflexivity |].
  split; [exact Hp |].
  split; [intros H; rewrite H in Hb; exact Hb |].
  split; [intros H; rewrite H in Hb; exact Hb |].
  intros sg m e H. apply round4_finite, H.
Qed.

(** C8 (amended). [get_sol_price] always returns a price and sends one
    request.  The price is the fallback 138.0 when the request fails,
    when the body does not decode, when [data], [SOL] or [price] is
    missing, or when the price does not convert; otherwise it is the
    converted price, whatever the status of the response and whatever
    the sign of the price. *)
Theorem get_sol_price_never_fails (w : World) (s : State) :
  exists q,
    get_sol_price w s = (Ok q, logged s SOL_PRICE_URL) /\
    match http w SOL_PRICE_URL with
    | Failed _ => q = 138%float
    | Answered resp =>
        match json_body resp with
        | Raise _ => q = 138%float
        | Ok data =>
            match (let? d := subscript data "data" in
                   let? sol := subscript d "SOL" in
                   subscript sol "price") with
            | Raise _ => q = 138%float
            | Ok price =>
                match py_float price with
                | Ok converted => q = converted
                | Raise _ => q = 138%float
                end
            end
        end
    end.
Proof.
  exists (sol_price_of (http w SOL_PRICE_URL)).
  split; [apply get_sol_price_run |].
  unfold sol_price_of, sol_price_reading, res_bind.
  destruct (http w SOL_PRICE_URL) as [e | resp]; [reflexivity |].
  destruct (json_body resp) as [data | e]; [| reflexivity].
  destruct (subscript data "data") as [d | e]; [| reflexivity].
  destruct (subscript d "SOL") as [sol | e]; [| reflexivity].
  destruct (subscript sol "price") as [price | e]; [| reflexivity].
  destruct (py_float price); reflexivity.
Qed.

(** C9 (amended). The [address] of the returned record is the address of
    the call up to letter case; it is the address exactly as given
    whenever the call went to the provider.  A record served from the
    cache keeps the spelling of the call that stored it. *)
Theorem address_field_of_record
        (h : list (string * World)) (contract_address : string) (w : World) :
  let s := run_history h initial_state in
  exists r a,
    fst (fetch_token_data contract_address w s) = Ok r /\
    dict_lookup "address" r = Some (JStr a) /\
    lower a = lower contract_address /\
    (requests (snd (fetch_token_data contract_address w s)) <> requests s ->
     a = contract_address).
Proof.
  intros s.
  destruct (fetch_token_data_outcome h contract_address w) as (r & Hr & [-> | Hok]).
  - exists (degraded_record contract_address), contract_address.
    split; [exact Hr |]. repeat split; reflexivity.
  - pose proof Hok as [_ (a & Ha & Hl)].
    exists r, a. split; [exact Hr |]. split; [exact Ha |]. split; [exact Hl |].
    intros Hreq. fold s in Hr.
    pose proof (fresh_success _ _ _ _ Hreq Hr (record_ok_no_warning _ _ Hok)) as T.
    apply try_result_inv in T. destruct T as (pair & side & _ & _ & Hb).
    apply build_result_inv in Hb.
    destruct Hb as (? & ? & ? & ? & ? & ? & ? & ? & ? & ? & ? & _ & _ & _ & _ & ->).
    simpl in Ha. congruence.
Qed.

(** C10. On a call that goes to the provider and is answered with a list
    of pairs: when some pair of the list holds a [liquidity.usd] that does
    not convert to a float, or the chosen pair holds such a value for
    [priceUsd], [priceChange.h24], [volume.h24], [marketCap] or [fdv], the
    call returns the degraded record. *)
Theorem unconvertible_number_degrades
        (contract_address : string) (w : World) (s : State) (items : list json) :
  requests (snd (fetch_token_data contract_address w s)) <> requests s ->
  answers_pairs (http w (search_url contract_address)) items ->
  (exists p v,
      In p items /\ carries_nested p "liquidity" "usd" v /\ unconvertible v)
  \/
  (exists pair v,
      best_pair (JArr items) = Ok pair /\ unconvertible v /\
      (carries pair "priceUsd" v \/ carries_nested pair "priceChange" "h24" v \/
       carries_nested pair "volume" "h24" v \/ carries pair "marketCap" v \/
       carries pair "fdv" v)) ->
  fst (fetch_token_data contract_address w s) = Ok (degraded_record contract_address).
Proof.
  intros Hreq Hans Hbad.
  assert (G : exists e, try_result contract_address w = Raise e).
  { unfold try_result, res_bind.
    destruct (answered_pairs_selected _ _ Hans) as [-> | [e ->]];
      [| eexists; reflexivity].
    destruct Hbad as [(p & v & Hin & Hc & Hv) | (pair & v & Hbest & Hv & Hc)].
    - destruct (nested_float_fails _ _ _ _ Hc Hv) as [e He].
      destruct (keyed_fails liquidity_key items p e Hin He) as [e' Hk].
      unfold best_pair, py_iter, res_bind. rewrite Hk. eexists; reflexivity.
    - rewrite Hbest.
      destruct (token_info_of contract_address pair) as [side |];
        [| eexists; reflexivity].
      eapply build_result_fails; eassumption. }
  destruct G as [e He]. eapply fresh_failure; eassumption.
Qed.

(** ** Further properties of the module *)

(** *** Requests *)


(** X2. When the market-data query fails or has no pairs, the search
    request is the only one sent: the price feed is not asked. *)
Theorem failed_query_skips_price_feed
        (contract_address : string) (w : World) (s : State) :
  upstream_unusable (http w (search_url contract_address)) = true ->
  requests (snd (fetch_token_data contract_address w s)) <> requests s ->
  requests (snd (fetch_token_data contract_address w s)) =
  requests s ++ [search_url contract_address].
Proof.
  intros Hbad Hreq.
  rewrite (fresh_fetch _ _ _ Hreq), fetch_uncached_run.
  destruct (unusable_raises _ Hbad) as [e He].
  assert (Ht : try_requests contract_address w = [search_url contract_address]).
  { unfold try_requests. rewrite He. reflexivity. }
  rewrite Ht. destruct (try_result contract_address w); reflexivity.
Qed.

(** *** The cache over time *)

(** After a call that returned a record without a warning, the cache
    holds that record under the lowercased address. *)
Lemma served_entry (contract_address : string) (w : World) (s : State) (r : dict) :
  fst (fetch_token_data contract_address w s) = Ok r ->
  dict_lookup "warning" r = None ->
  exists e,
    cache_find (lower contract_address)
               (cache (snd (fetch_token_data contract_address w s))) = Some e /\
    e_value e = r /\ dict_truthy r = true.
Proof.
  intros Hr Hw.
  destruct (fetch_token_data_cases contract_address w s) as [(r' & Hg & Ht & E) | [_ E]].
  - rewrite E in Hr |- *. simpl in Hr. injection Hr as <-.
    destruct (cache_get_value _ _ _ _ Hg) as (e & Hf & Hv & _ & Hc).
    exists e. unfold after_lookup. simpl. rewrite Hc.
    split; [apply cache_find_moved; apply cache_find_some in Hf; apply Hf | auto].
  - rewrite E, fetch_uncached_run in Hr |- *.
    destruct (try_result contract_address w) as [r' |] eqn:T; simpl in Hr.
    + injection Hr as <-. simpl. rewrite cache_find_set.
      eexists. split; [reflexivity |]. split; [reflexivity |].
      eapply record_ok_truthy, try_result_ok, T.
    + injection Hr as <-. discriminate Hw.
Qed.

(** A call whose key is not live in the cache goes to the provider. *)
Lemma dead_key_queries (contract_address : string) (w : World) (s : State) :
  is_live (lower contract_address) (now_lookup w) (cache s) = false ->
  exists rest,
    requests (snd (fetch_token_data contract_address w s)) =
    requests s ++ search_url contract_address :: rest.
Proof.
  intros Hdead.
  destruct (fetch_token_data_cases contract_address w s) as [(r & Hg & _ & _) | [_ ->]].
  - rewrite (cache_get_dead _ _ _ Hdead) in Hg. discriminate.
  - rewrite fetch_uncached_run.
    destruct (try_requests_shape contract_address w) as [rest ->].
    exists rest. destruct (try_result contract_address w); reflexivity.
Qed.

(** X3. A record fetched afresh is served from the cache for [ttl] = 300
    units after its write and no longer: a call for the same address at
    or after that time queries the provider again. *)
Theorem expired_record_is_refetched
        (contract_address : string) (w1 w2 : World) (s : State) (r : dict) :
  requests (snd (fetch_token_data contract_address w1 s)) <> requests s ->
  fst (fetch_token_data contract_address w1 s) = Ok r ->
  dict_lookup "warning" r = None ->
  now_write w1 + 300 <= now_lookup w2 ->
  let s1 := snd (fetch_token_data contract_address w1 s) in
  exists rest,
    requests (snd (fetch_token_data contract_address w2 s1)) =
    requests s1 ++ search_url contract_address :: rest.
Proof.
  intros Hreq Hr Hw Hlate s1.
  apply dead_key_queries. unfold s1.
  rewrite (fresh_fetch _ _ _ Hreq) in Hr |- *.
  rewrite fetch_uncached_run in Hr |- *.
  destruct (try_result contract_address w1) as [r' |]; simpl in Hr |- *.
  - unfold is_live. rewrite cache_find_set. simpl.
    apply Z.ltb_ge. unfold ttl. exact Hlate.
  - injection Hr as <-. discriminate Hw.
Qed.

(** X4. Addresses that differ only in letter case share one cache entry:
    after a call for [a] returned a record without a warning, a call for
    any [b] with the same lowercase form, made while the entry is live,
    returns that very record, [address] field included, and sends no
    request. *)
Theorem case_variants_share_entry
        (a b : string) (w1 w2 : World) (s : State) (r : dict) :
  lower b = lower a ->
  fst (fetch_token_data a w1 s) = Ok r ->
  dict_lookup "warning" r = None ->
  is_live (lower a) (now_lookup w2) (cache (snd (fetch_token_data a w1 s))) = true ->
  let s1 := snd (fetch_token_data a w1 s) in
  fst (fetch_token_data b w2 s1) = Ok r /\
  requests (snd (fetch_token_data b w2 s1)) = requests s1.
Proof.
  intros Hab Hr Hw Hlive s1.
  destruct (served_entry _ _ _ _ Hr Hw) as (e & Hf & <- & Ht).
  fold s1 in Hf, Hlive. unfold is_live in Hlive. rewrite Hf in Hlive.
  apply Z.ltb_lt in Hlive. rewrite <- Hab in Hf.
  rewrite (hit_run _ _ _ _ Hf Hlive Ht). split; reflexivity.
Qed.

(** X5. In every state the process can reach, the cache holds success
    records only: no cached record has a warning, each has the fourteen
    keys of a full result, and its [address] lowercases to the key it is
    stored under. *)
Theorem cache_holds_success_records_only (h : list (string * World)) :
  Forall (fun e =>
            dict_lookup "warning" (e_value e) = None /\
            dict_keys (e_value e) = success_keys /\
            exists a, dict_lookup "address" (e_value e) = Some (JStr a) /\
                      lower a = e_key e)
         (cache (run_history h initial_state)).
Proof.
  pose proof (run_history_wf h initial_state initial_cache_wf) as Hwf.
  unfold cache_wf in Hwf. rewrite Forall_forall in Hwf |- *.
  intros e He. specialize (Hwf e He).
  split; [eapply record_ok_no_warning, Hwf |]. exact Hwf.
Qed.

(** X6. In every state the process can reach, a call that returns a
    record with a warning leaves the cache exactly as it found it:
    nothing is written, evicted or reordered. *)
Theorem degraded_call_leaves_cache
        (h : list (string * World)) (contract_address : string) (w : World) (r : dict) :
  let s := run_history h initial_state in
  fst (fetch_token_data contract_address w s) = Ok r ->
  dict_lookup "warning" r <> None ->
  cache (snd (fetch_token_data contract_address w s)) = cache s.
Proof.
  intros s Hr Hw.
  assert (Hs : cache_wf (cache s)) by apply run_history_wf, initial_cache_wf.
  destruct (fetch_token_data_cases contract_address w s) as [(r' & Hg & _ & E) | [Hfalsy E]].
  - rewrite E in Hr. simpl in Hr. injection Hr as <-.
    contradiction Hw. eapply record_ok_no_warning, cache_wf_hit; eassumption.
  - assert (Hc : cache (after_lookup contract_address w s) = cache s).
    { unfold after_lookup. simpl.
      pose proof (cache_get_spec (lower contract_address) (now_lookup w) (cache s)) as Sp.
      destruct (cache_get (lower contract_address) (now_lookup w) (cache s))
        as [[r0 |] c'] eqn:G; simpl.
      - exfalso.
        assert (Hok : record_ok (lower contract_address) r0)
          by (eapply cache_wf_hit; [exact Hs | rewrite G; reflexivity]).
        specialize (Hfalsy r0 eq_refl).
        rewrite (record_ok_truthy _ _ Hok) in Hfalsy. discriminate.
      - apply Sp. }
    rewrite E, fetch_uncached_run in Hr |- *.
    destruct (try_result contract_address w) as [r' |] eqn:T; simpl in Hr |- *.
    + injection Hr as <-. contradiction Hw.
      eapply record_ok_no_warning, try_result_ok, T.
    + exact Hc.
Qed.

(** *** Size and keys of the cache *)

Lemma lower_ascii_idempotent (c : ascii) : lower_ascii (lower_ascii c) = lower_ascii c.
Proof. destruct c as [[] [] [] [] [] [] [] []]; reflexivity. Qed.

Lemma ascii_lower_idempotent (s : string) : ascii_lower (ascii_lower s) = ascii_lower s.
Proof.
  induction s as [| c rest IH]; simpl; [reflexivity |].
  rewrite lower_ascii_idempotent, IH. reflexivity.
Qed.

Lemma cache_remove_length (key : string) (c : Cache) :
  (List.length (cache_remove key c) <= List.length c)%nat.
Proof. apply filter_length_le. Qed.

Lemma cache_remove_found (key : string) (c : Cache) (e : entry) :
  cache_find key c = Some e ->
  (S (List.length (cache_remove key c)) <= List.length c)%nat.
Proof.
  unfold cache_remove.
  induction c as [| x rest IH]; simpl; [discriminate |].
  destruct (String.eqb (e_key x) key); simpl.
  - intros _. pose proof (filter_length_le
      (fun e0 => negb (String.eqb (e_key e0) key)) rest). lia.
  - intros H. specialize (IH H). lia.
Qed.

Lemma cache_get_length (key : string) (now : Z) (c : Cache) :
  (List.length (snd (cache_get key now c)) <= List.length c)%nat.
Proof.
  unfold cache_get.
  destruct (cache_find key c) as [e |] eqn:Hf; [| simpl; lia].
  destruct (now <? e_expires e); simpl; [| lia].
  rewrite length_app. simpl.
  pose proof (cache_remove_found _ _ _ Hf). lia.
Qed.

Lemma cache_set_length (key : string) (value : dict) (now : Z) (c : Cache) :
  (List.length c <= maxsize)%nat ->
  (List.length (cache_set key value now c) <= maxsize)%nat.
Proof.
  intros Hc. unfold cache_set. rewrite length_app. simpl.
  assert (He : (List.length (expire now c) <= maxsize)%nat).
  { pose proof (filter_length_le (fun e => now <? e_expires e) c) as H.
    unfold expire. lia. }
  destruct (cache_find key (expire now c)) as [e |] eqn:Hf.
  - pose proof (cache_remove_found _ _ _ Hf). lia.
  - pose proof (cache_remove_length key
                  (skipn (List.length (expire now c) + 1 - maxsize) (expire now c))) as H.
    rewrite length_skipn in H. unfold maxsize in *. lia.
Qed.

Lemma keys_filter (f : entry -> bool) (c : Cache) :
  NoDup (map e_key c) -> NoDup (map e_key (filter f c)).
Proof.
  induction c as [| x rest IH]; simpl; [auto |].
  intros H. inversion H as [| k ks Hnin Hnd]; subst.
  destruct (f x); simpl; [| auto].
  constructor; [| auto].
  intros Hin. apply Hnin. apply in_map_iff in Hin. destruct Hin as (y & Hy & Hin).
  apply in_map_iff. exists y. split; [exact Hy |]. apply filter_In in Hin. apply Hin.
Qed.

Lemma keys_skipn (n : nat) (c : Cache) :
  NoDup (map e_key c) -> NoDup (map e_key (skipn n c)).
Proof.
  revert c. induction n as [| n IH]; intros c H; [exact H |].
  destruct c as [| x rest]; [exact H |].
  simpl. apply IH. inversion H; assumption.
Qed.

Lemma keys_moved (key : string) (c : Cache) (e : entry) :
  e_key e = key -> NoDup (map e_key c) ->
  NoDup (map e_key (cache_remove key c ++ [e])).
Proof.
  intros He Hc. rewrite map_app. simpl.
  apply NoDup_app; [apply keys_filter, Hc | repeat constructor; auto |].
  intros k Hin [<- | []]. rewrite He in Hin.
  apply in_map_iff in Hin. destruct Hin as (y & Hy & Hin).
  apply filter_In in Hin. destruct Hin as [_ Hneq].
  rewrite Hy, String.eqb_refl in Hneq. discriminate.
Qed.

Lemma cache_get_keys (key : string) (now : Z) (c : Cache) :
  NoDup (map e_key c) -> NoDup (map e_key (snd (cache_get key now c))).
Proof.
  intros Hc. unfold cache_get.
  destruct (cache_find key c) as [e |] eqn:Hf; [| exact Hc].
  destruct (now <? e_expires e); [| exact Hc]. simpl.
  apply keys_moved; [apply cache_find_some in Hf; apply Hf | exact Hc].
Qed.

Lemma cache_set_keys (key : string) (value : dict) (now : Z) (c : Cache) :
  NoDup (map e_key c) -> NoDup (map e_key (cache_set key value now c)).
Proof.
  intros Hc. unfold cache_set. apply keys_moved; [reflexivity |].
  destruct (cache_find key (expire now c)).
  - apply keys_filter, Hc.
  - apply keys_skipn, keys_filter, Hc.
Qed.

(** The three bounds together are kept by every call. *)
Lemma fetch_keeps_bounds (contract_address : string) (w : World) (s : State) :
  (List.length (cache s) <= maxsize)%nat /\
  NoDup (map e_key (cache s)) /\
  Forall (fun e => lower (e_key e) = e_key e) (cache s) ->
  let c' := cache (snd (fetch_token_data contract_address w s)) in
  (List.length c' <= maxsize)%nat /\
  NoDup (map e_key c') /\
  Forall (fun e => lower (e_key e) = e_key e) c'.
Proof.
  intros (Hlen & Hkeys & Hlow) c'.
  assert (Hl : (List.length (cache (after_lookup contract_address w s)) <= maxsize)%nat /\
               NoDup (map e_key (cache (after_lookup contract_address w s))) /\
               Forall (fun e => lower (e_key e) = e_key e)
                      (cache (after_lookup contract_address w s))).
  { unfold after_lookup. simpl. split; [| split].
    - pose proof (cache_get_length (lower contract_address) (now_lookup w) (cache s)). lia.
    - apply cache_get_keys, Hkeys.
    - apply cache_get_Forall, Hlow. }
  unfold c'.
  destruct (fetch_token_data_cases contract_address w s) as [(r & _ & _ & ->) | [_ ->]].
  - exact Hl.
  - rewrite fetch_uncached_run.
    destruct (try_result contract_address w) as [r |]; simpl; [| exact Hl].
    destruct Hl as (Hl1 & Hl2 & Hl3). split; [| split].
    + apply cache_set_length, Hl1.
    + apply cache_set_keys, Hl2.
    + apply cache_set_Forall; [exact Hl3 | apply lower_idempotent].
Qed.

(** X7. In every state the process can reach, the cache holds at most 500
    entries, no two of them under the same key, and every key is a
    lowercase string. *)
Theorem cache_stays_bounded (h : list (string * World)) :
  let c := cache (run_history h initial_state) in
  (List.length c <= 500)%nat /\
  NoDup (map e_key c) /\
  Forall (fun e => lower (e_key e) = e_key e) c.
Proof.
  assert (G : forall s,
             (List.length (cache s) <= maxsize)%nat /\
             NoDup (map e_key (cache s)) /\
             Forall (fun e => lower (e_key e) = e_key e) (cache s) ->
             (List.length (cache (run_history h s)) <= maxsize)%nat /\
             NoDup (map e_key (cache (run_history h s))) /\
             Forall (fun e => lower (e_key e) = e_key e) (cache (run_history h s))).
  { induction h as [| [a w] rest IH]; intros s Hs; simpl; [exact Hs |].
    apply IH, fetch_keeps_bounds, Hs. }
  apply G. simpl. split; [unfold maxsize; lia |]. split; constructor.
Qed.

(** *** Cache hits and expiry *)

Lemma cache_find_app (key : string) (c1 c2 : Cache) :
  cache_find key (c1 ++ c2) =
  match cache_find key c1 with
  | Some e => Some e
  | None => cache_find key c2
  end.
Proof.
  induction c1 as [| x rest IH]; simpl; [reflexivity |].
  destruct (String.eqb (e_key x) key); [reflexivity | exact IH].
Qed.

Lemma cache_find_remove_other (key k : string) (c : Cache) :
  k <> key -> cache_find k (cache_remove key c) = cache_find k c.
Proof.
  intros Hne. unfold cache_remove.
  induction c as [| x rest IH]; simpl; [reflexivity |].
  destruct (String.eqb (e_key x) key) eqn:E; simpl.
  - apply String.eqb_eq in E.
    destruct (String.eqb (e_key x) k) eqn:E'; [| exact IH].
    apply String.eqb_eq in E'. congruence.
  - destruct (String.eqb (e_key x) k); [reflexivity | exact IH].
Qed.

Lemma cache_get_find (key k : string) (now : Z) (c : Cache) :
  cache_find k (snd (cache_get key now c)) = cache_find k c.
Proof.
  unfold cache_get.
  destruct (cache_find key c) as [e |] eqn:Hf; [| reflexivity].
  destruct (now <? e_expires e); [| reflexivity]. simpl.
  pose proof (cache_find_some _ _ _ Hf) as [He _].
  destruct (String.eqb_spec k key) as [-> | Hne].
  - rewrite cache_find_moved by exact He. symmetry. exact Hf.
  - rewrite cache_find_app, cache_find_remove_other by exact Hne.
    destruct (cache_find k c); [reflexivity |].
    simpl. destruct (String.eqb_spec (e_key e) k); [congruence | reflexivity].
Qed.

(** X8. A call served from the cache does not prolong any entry's life:
    for every key and every time, the key is live after the call exactly
    when it was live before it. *)
Theorem hit_does_not_extend_life
        (contract_address : string) (w : World) (s : State) (key : string) (now : Z) :
  requests (snd (fetch_token_data contract_address w s)) = requests s ->
  is_live key now (cache (snd (fetch_token_data contract_address w s))) =
  is_live key now (cache s).
Proof.
  intros Hreq.
  destruct (fetch_token_data_cases contract_address w s) as [(r & _ & _ & E) | [_ E]].
  - rewrite E. unfold after_lookup, is_live. simpl.
    rewrite cache_get_find. reflexivity.
  - exfalso. rewrite E, fetch_uncached_run in Hreq.
    destruct (try_requests_shape contract_address w) as [rest Hs].
    assert (Hlen : List.length (requests s ++ try_requests contract_address w)
                   = List.length (requests s)).
    { destruct (try_result contract_address w); simpl in Hreq; rewrite Hreq; reflexivity. }
    rewrite length_app, Hs in Hlen. simpl in Hlen. lia.
Qed.


(** *** The fields of a fresh record *)

Lemma build_result_fields (contract_address : string) (pair token_info : json)
      (sol_price : float) (r : dict) :
  build_result contract_address pair token_info sol_price = Ok r ->
  exists price change liquidity volume cap fdv dex url,
    field_float pair "priceUsd" = Ok price /\
    nested_float pair "priceChange" "h24" = Ok change /\
    nested_float pair "liquidity" "usd" = Ok liquidity /\
    nested_float pair "volume" "h24" = Ok volume /\
    field_float pair "marketCap" = Ok cap /\
    field_float pair "fdv" = Ok fdv /\
    subscript pair "dexId" = Ok dex /\
    subscript pair "url" = Ok url /\
    dict_lookup "price_usd" r = Some (JFloat price) /\
    dict_lookup "price_change_h24" r = Some (JFloat change) /\
    dict_lookup "liquidity_usd" r = Some (JFloat liquidity) /\
    dict_lookup "volume_h24" r = Some (JFloat volume) /\
    dict_lookup "market_cap" r = Some (JFloat cap) /\
    dict_lookup "fdv" r = Some (JFloat fdv) /\
    dict_lookup "dex" r = Some dex /\
    dict_lookup "dexscreener_url" r = Some url /\
    dict_lookup "buy_1_sol_tokens" r =
    Some (py_round4 (if (0 <? price)%float
                     then JFloat (sol_price / price) else JInt 0)) /\
    dict_lookup "solscan_url" r =
    Some (JStr ("https://solscan.io/token/" ++ contract_address)%string).
Proof.
  unfold build_result, res_bind. intros H.
  split_res H. injection H as <-.
  do 8 eexists. repeat split; reflexivity.
Qed.

Lemma field_float_absent (fields : dict) (field : string) :
  dict_lookup field fields = None -> field_float (JObj fields) field = Ok 0%float.
Proof.
  intros H. unfold field_float, py_get, res_bind. rewrite H. reflexivity.
Qed.

Lemma nested_float_absent (fields : dict) (outer inner : string) :
  dict_lookup outer fields = None \/
  (exists o, dict_lookup outer fields = Some (JObj o) /\ dict_lookup inner o = None) ->
  nested_float (JObj fields) outer inner = Ok 0%float.
Proof.
  unfold nested_float, py_get, res_bind.
  intros [H | (o & H & H')]; rewrite H; simpl; [reflexivity |].
  rewrite H'. reflexivity.
Qed.

(** X9. Numbers the chosen pair does not carry are 0 in the record: an
    absent [priceUsd] gives [price_usd] 0 and [buy_1_sol_tokens] 0; an
    absent [marketCap] or [fdv] gives 0; and [priceChange.h24],
    [liquidity.usd] and [volume.h24] give 0 both when the outer object is
    absent and when it lacks the inner key. *)
Theorem absent_numbers_default_to_zero
        (contract_address : string) (w : World) (s : State) (r : dict) (fields : dict) :
  requests (snd (fetch_token_data contract_address w s)) <> requests s ->
  fst (fetch_token_data contract_address w s) = Ok r ->
  dict_lookup "warning" r = None ->
  selected_pair (http w (search_url contract_address)) = Ok (JObj fields) ->
  let absent outer inner :=
    dict_lookup outer fields = None \/
    (exists o, dict_lookup outer fields = Some (JObj o) /\ dict_lookup inner o = None) in
  (dict_lookup "priceUsd" fields = None ->
   dict_lookup "price_usd" r = Some (JFloat 0) /\
   dict_lookup "buy_1_sol_tokens" r = Some (JInt 0)) /\
  (dict_lookup "marketCap" fields = None -> dict_lookup "market_cap" r = Some (JFloat 0)) /\
  (dict_lookup "fdv" fields = None -> dict_lookup "fdv" r = Some (JFloat 0)) /\
  (absent "priceChange" "h24" -> dict_lookup "price_change_h24" r = Some (JFloat 0)) /\
  (absent "liquidity" "usd" -> dict_lookup "liquidity_usd" r = Some (JFloat 0)) /\
  (absent "volume" "h24" -> dict_lookup "volume_h24" r = Some (JFloat 0)).
Proof.
  intros Hreq Hr Hw Hsel absent.
  pose proof (fresh_success _ _ _ _ Hreq Hr Hw) as T.
  apply try_result_inv in T. destruct T as (pair & side & Hsel' & _ & Hb).
  rewrite Hsel in Hsel'. injection Hsel' as <-.
  apply build_result_fields in Hb.
  destruct Hb as (price & change & liq & vol & cap & fdv & dex & url
                  & Hp & Hch & Hl & Hv & Hcap & Hfdv & _ & _
                  & Rp & Rch & Rl & Rv & Rcap & Rfdv & _ & _ & Rbuy & _).
  split; [| split; [| split; [| split; [| split]]]].
  - intros H. rewrite (field_float_absent _ _ H) in Hp. injection Hp as <-.
    split; [exact Rp | exact Rbuy].
  - intros H. rewrite (field_float_absent _ _ H) in Hcap. injection Hcap as <-. exact Rcap.
  - intros H. rewrite (field_float_absent _ _ H) in Hfdv. injection Hfdv as <-. exact Rfdv.
  - intros H. rewrite (nested_float_absent _ _ _ H) in Hch. injection Hch as <-. exact Rch.
  - intros H. rewrite (nested_float_absent _ _ _ H) in Hl. injection Hl as <-. exact Rl.
  - intros H. rewrite (nested_float_absent _ _ _ H) in Hv. injection Hv as <-. exact Rv.
Qed.

(** X10. The name, symbol and decimals of the record are those of the
    token object on the chosen side, taken as they are (a null stays a
    null); only a key the object does not have is replaced, by
    ["Unknown"], ["???"] and 9. *)
Theorem token_fields_pass_through_or_default
        (contract_address : string) (w : World) (s : State) (r : dict)
        (pair : json) (fields : dict) :
  requests (snd (fetch_token_data contract_address w s)) <> requests s ->
  fst (fetch_token_data contract_address w s) = Ok r ->
  dict_lookup "warning" r = None ->
  selected_pair (http w (search_url contract_address)) = Ok pair ->
  token_info_of contract_address pair = Ok (JObj fields) ->
  dict_lookup "name" r = Some (field_or fields "name" (JStr "Unknown")) /\
  dict_lookup "symbol" r = Some (field_or fields "symbol" (JStr "???")) /\
  dict_lookup "decimals" r = Some (field_or fields "decimals" (JInt 9)).
Proof.
  intros Hreq Hr Hw Hsel Hside.
  pose proof (fresh_success _ _ _ _ Hreq Hr Hw) as T.
  apply try_result_inv in T. destruct T as (pair' & side & Hsel' & Hti & Hb).
  rewrite Hsel in Hsel'. injection Hsel' as <-.
  rewrite Hside in Hti. injection Hti as <-.
  apply build_result_inv in Hb.
  destruct Hb as (? & name & symbol & decimals & ? & ? & ? & ? & ? & ? & ?
                  & _ & Hn & Hsy & Hd & ->).
  unfold py_get in Hn, Hsy, Hd. unfold field_or.
  destruct (dict_lookup "name" fields); injection Hn as <-;
  destruct (dict_lookup "symbol" fields); injection Hsy as <-;
  destruct (dict_lookup "decimals" fields); injection Hd as <-;
  repeat split; reflexivity.
Qed.

(** X11. [baseToken], [dexId] and [url] have no default: when the chosen
    pair lacks one of them the call returns the degraded record. *)
Theorem missing_required_key_degrades
        (contract_address : string) (w : World) (s : State)
        (items : list json) (fields : dict) :
  requests (snd (fetch_token_data contract_address w s)) <> requests s ->
  answers_pairs (http w (search_url contract_address)) items ->
  best_pair (JArr items) = Ok (JObj fields) ->
  dict_lookup "baseToken" fields = None \/
  dict_lookup "dexId" fields = None \/
  dict_lookup "url" fields = None ->
  fst (fetch_token_data contract_address w s) = Ok (degraded_record contract_address).
Proof.
  intros Hreq Hans Hbest Hmiss.
  assert (G : exists e, try_result contract_address w = Raise e).
  { unfold try_result, res_bind.
    destruct (answered_pairs_selected _ _ Hans) as [-> | [e ->]];
      [| eexists; reflexivity].
    rewrite Hbest.
    destruct (token_info_of contract_address (JObj fields)) as [side |] eqn:Hti;
      [| eexists; reflexivity].
    destruct Hmiss as [H | [H | H]].
    - unfold token_info_of, res_bind, subscript in Hti. rewrite H in Hti. discriminate.
    - unfold build_result, res_bind.
      replace (subscript (JObj fields) "dexId") with (@Raise json (KeyError "dexId"))
        by (unfold subscript; rewrite H; reflexivity).
      all_branches_raise.
    - unfold build_result, res_bind.
      replace (subscript (JObj fields) "url") with (@Raise json (KeyError "url"))
        by (unfold subscript; rewrite H; reflexivity).
      all_branches_raise. }
  destruct G as [e He]. eapply fresh_failure; eassumption.
Qed.

(** *** Answers of the wrong shape *)

Lemma liquidity_key_needs_object (p : json) :
  is_object p = false -> exists e, liquidity_key p = Raise e.
Proof.
  destruct p; try discriminate; intros _; eexists; reflexivity.
Qed.

Lemma best_pair_needs_objects (items : list json) (p : json) :
  In p items -> is_object p = false -> exists e, best_pair (JArr items) = Raise e.
Proof.
  intros Hin Hp. destruct (liquidity_key_needs_object p Hp) as [e He].
  destruct (keyed_fails liquidity_key items p e Hin He) as [e' Hk].
  unfold best_pair, py_iter, res_bind. rewrite Hk. eexists; reflexivity.
Qed.

Lemma best_pair_needs_list (v : json) :
  is_list v = false -> truthy v = true -> exists e, best_pair v = Raise e.
Proof.
  unfold best_pair, py_iter, res_bind.
  destruct v as [| b | n | f | str | items | fields]; try discriminate; intros _ Ht;
    try (eexists; reflexivity).
  - destruct str as [| c rest]; [discriminate Ht | eexists; reflexivity].
  - destruct fields as [| [k x] rest]; [discriminate Ht | eexists; reflexivity].
Qed.

(** X12. An answer whose [pairs] is not a list, or is a list with an
    element that is not an object, gives the degraded record. *)
Theorem malformed_pairs_degrade
        (contract_address : string) (w : World) (s : State)
        (resp : response) (data pairs : json) :
  requests (snd (fetch_token_data contract_address w s)) <> requests s ->
  http w (search_url contract_address) = Answered resp ->
  json_body resp = Ok data ->
  carries data "pairs" pairs ->
  is_list pairs = false \/
  (exists items p, pairs = JArr items /\ In p items /\ is_object p = false) ->
  fst (fetch_token_data contract_address w s) = Ok (degraded_record contract_address).
Proof.
  intros Hreq Hhttp Hbody (fields & -> & Hl) Hbad.
  assert (G : exists e, try_result contract_address w = Raise e).
  { unfold try_result, selected_pair, res_bind, py_get, subscript.
    rewrite Hhttp, Hbody, Hl.
    destruct (negb (status resp =? 200)); [eexists; reflexivity |].
    destruct (truthy pairs) eqn:Ht; simpl; [| eexists; reflexivity].
    assert (Hbp : exists e, best_pair pairs = Raise e).
    { destruct Hbad as [H | (items & p & -> & Hin & Hp)].
      - apply best_pair_needs_list; assumption.
      - eapply best_pair_needs_objects; eassumption. }
    destruct Hbp as [e ->]. eexists; reflexivity. }
  destruct G as [e He]. eapply fresh_failure; eassumption.
Qed.

(** *** The record and the pairs of the answer *)

Lemma best_pair_is_greatest (items : list json) (pair : json) :
  (forall p k, In p items -> liquidity_key p = Ok k -> is_nan k = false) ->
  best_pair (JArr items) = Ok pair ->
  In pair items /\
  exists k, liquidity_key pair = Ok k /\
            forall p kp, In p items -> liquidity_key p = Ok kp -> float_le kp k.
Proof.
  intros Hnn. unfold best_pair, py_iter, res_bind.
  destruct (keyed liquidity_key items) as [ks |] eqn:Hks; [| discriminate].
  destruct (keyed_inv _ _ _ Hks) as [Hmap Hkey].
  assert (Hnan : forall x, In x ks -> is_nan (fst x) = false).
  { intros x Hx. apply (Hnn (snd x)); [| apply Hkey, Hx].
    rewrite <- Hmap. apply in_map, Hx. }
  rewrite (py_sorted_reverse_stable ks Hnan).
  destruct ks as [| k0 ks']; [discriminate |].
  destruct (sorted_desc_head (k0 :: ks') ltac:(discriminate) Hnan)
    as (before & x & after & tl & Hs & Hl & Hb & Ha).
  rewrite Hs. destruct x as [k p0]. intros [= <-].
  assert (Hx : In (k, p0) (k0 :: ks')).
  { rewrite Hl. apply in_or_app. right. left. reflexivity. }
  split.
  - rewrite <- Hmap. apply in_map_iff. exists (k, p0). auto.
  - exists k. split; [apply (Hkey _ Hx) |].
    intros p kp Hin Hp. rewrite <- Hmap in Hin. apply in_map_iff in Hin.
    destruct Hin as (z & <- & Hz).
    rewrite (Hkey _ Hz) in Hp. injection Hp as <-.
    rewrite Hl in Hz. apply in_app_or in Hz.
    destruct Hz as [Hz | [<- | Hz]].
    + apply float_lt_le, (Hb _ Hz).
    + apply float_le_refl, (Hnan _ Hx).
    + apply (Ha _ Hz).
Qed.

(** X13. When no liquidity in the answer is [nan], the [liquidity_usd] of
    a fresh record is the greatest liquidity in the answer: no pair of
    the answer has more, and the [dex] and [dexscreener_url] of the
    record are the [dexId] and [url] of one pair of the answer with
    exactly that liquidity. *)
Theorem record_reports_greatest_liquidity
        (contract_address : string) (w : World) (s : State) (r : dict)
        (items : list json) :
  requests (snd (fetch_token_data contract_address w s)) <> requests s ->
  fst (fetch_token_data contract_address w s) = Ok r ->
  dict_lookup "warning" r = None ->
  answers_pairs (http w (search_url contract_address)) items ->
  (forall p k, In p items -> liquidity_key p = Ok k -> is_nan k = false) ->
  exists k pair dex url,
    dict_lookup "liquidity_usd" r = Some (JFloat k) /\
    (forall p kp, In p items -> liquidity_key p = Ok kp -> float_le kp k) /\
    In pair items /\ liquidity_key pair = Ok k /\
    subscript pair "dexId" = Ok dex /\ dict_lookup "dex" r = Some dex /\
    subscript pair "url" = Ok url /\ dict_lookup "dexscreener_url" r = Some url.
Proof.
  intros Hreq Hr Hw Hans Hnn.
  pose proof (fresh_success _ _ _ _ Hreq Hr Hw) as T.
  apply try_result_inv in T. destruct T as (pair & side & Hsel & _ & Hb).
  destruct (answered_pairs_selected _ _ Hans) as [E | [e E]];
    rewrite E in Hsel; [| discriminate].
  destruct (best_pair_is_greatest _ _ Hnn Hsel) as (Hin & k & Hk & Hmax).
  apply build_result_fields in Hb.
  destruct Hb as (price & change & liq & vol & cap & fdv & dex & url
                  & _ & _ & Hl & _ & _ & _ & Hdex & Hurl
                  & _ & _ & Rl & _ & _ & _ & Rdex & Rurl & _ & _).
  unfold liquidity_key in Hk. rewrite Hk in Hl. injection Hl as <-.
  exists k, pair, dex, url. repeat split; assumption.
Qed.

(** *** The price feed and the record *)

Lemma dict_lookup_cons (key k : string) (v : json) (rest : dict) :
  dict_lookup key ((k, v) :: rest) =
  if String.eqb k key then Some v else dict_lookup key rest.
Proof. reflexivity. Qed.

Lemma build_result_sol_price (contract_address : string) (pair token_info : json)
      (sol1 sol2 : float) :
  match build_result contract_address pair token_info sol1,
        build_result contract_address pair token_info sol2 with
  | Ok r1, Ok r2 =>
      forall key, key <> "buy_1_sol_tokens" -> dict_lookup key r1 = dict_lookup key r2
  | Raise _, Raise _ => True
  | _, _ => False
  end.
Proof.
  unfold build_result, res_bind.
  repeat match goal with
         | |- context [match ?x with Ok _ => _ | Raise _ => _ end] =>
             destruct x; [| exact I]
         end.
  intros key Hne.
  rewrite !dict_lookup_cons.
  repeat match goal with
         | |- context [String.eqb ?k key] =>
             destruct (String.eqb_spec k key) as [Heq | _];
             [first [reflexivity | exfalso; apply Hne; symmetry; exact Heq] |]
         end.
  reflexivity.
Qed.

(** X14. The price feed decides [buy_1_sol_tokens] and nothing else: two
    calls that differ only in what the price feed answers return records
    that agree on every other key, the warning included, so a failing
    price feed never degrades a lookup. *)
Theorem price_feed_decides_one_field
        (contract_address : string) (w1 w2 : World) (s : State) :
  now_lookup w1 = now_lookup w2 ->
  http w1 (search_url contract_address) = http w2 (search_url contract_address) ->
  exists r1 r2,
    fst (fetch_token_data contract_address w1 s) = Ok r1 /\
    fst (fetch_token_data contract_address w2 s) = Ok r2 /\
    forall key, key <> "buy_1_sol_tokens" -> dict_lookup key r1 = dict_lookup key r2.
Proof.
  intros Hnow Hhttp.
  unfold fetch_token_data, bind, cache_lookup, ret. rewrite <- Hnow.
  assert (G : exists r1 r2,
             fst (fetch_uncached contract_address w1
                    {| cache := snd (cache_get (lower contract_address) (now_lookup w1)
                                               (cache s));
                       requests := requests s |}) = Ok r1 /\
             fst (fetch_uncached contract_address w2
                    {| cache := snd (cache_get (lower contract_address) (now_lookup w1)
                                               (cache s));
                       requests := requests s |}) = Ok r2 /\
             forall key, key <> "buy_1_sol_tokens" ->
                         dict_lookup key r1 = dict_lookup key r2).
  { rewrite !fetch_uncached_run. unfold try_result, res_bind. rewrite <- Hhttp.
    destruct (selected_pair (http w1 (search_url contract_address))) as [pair |];
      [| do 2 eexists; repeat split; reflexivity].
    destruct (token_info_of contract_address pair) as [side |];
      [| do 2 eexists; repeat split; reflexivity].
    pose proof (build_result_sol_price contract_address pair side
                  (sol_price_of (http w1 SOL_PRICE_URL))
                  (sol_price_of (http w2 SOL_PRICE_URL))) as H.
    destruct (build_result contract_address pair side
                (sol_price_of (http w1 SOL_PRICE_URL))) as [r1 |];
      destruct (build_result contract_address pair side
                  (sol_price_of (http w2 SOL_PRICE_URL))) as [r2 |];
      try contradiction.
    - exists r1, r2. split; [reflexivity | split; [reflexivity | exact H]].
    - do 2 eexists. repeat split; reflexivity. }
  destruct (cache_get (lower contract_address) (now_lookup w1) (cache s))
    as [[hit |] c']; simpl in *.
  - destruct (dict_truthy hit); [| exact G].
    exists hit, hit. repeat split; reflexivity.
  - exact G.
Qed.

End Aggregator.

(** ** The properties at concrete inputs *)

Ltac by_evaluation := vm_compute; first [reflexivity | discriminate].

(** The end-to-end scenario: the record is the one the specification
    expects, and the cache holds it under the lowercased address. *)
Example scenario_fetch :
  fst (fetch_token_data ascii_lower parse_decimal sorted_desc "ABC123" (world_scenario 0 1) initial_state) =
  Ok (scenario_record 0.03 5000) /\
  is_live "abc123" 300
          (cache (snd (fetch_token_data ascii_lower parse_decimal sorted_desc "ABC123" (world_scenario 0 1)
                                        initial_state))) = true.
Proof. split; by_evaluation. Qed.

(** C2, as stated, fails: the record returned when the provider cannot be
    reached lacks fields of the data model. *)
Lemma degraded_record_lacks_fields :
  fst (fetch_token_data ascii_lower parse_decimal sorted_desc "ABC123" world_down initial_state) =
  Ok (degraded_record "ABC123") /\
  has_key "decimals" (degraded_record "ABC123") = false /\
  ~ every_field_present (degraded_record "ABC123").
Proof.
  split; [by_evaluation |]. split; [by_evaluation |].
  intros H. specialize (H "decimals"). simpl in H.
  assert (F : false = true) by (apply H; tauto). discriminate F.
Qed.

(** C3 at a provider that knows no pair for the address. *)
Lemma degraded_record_not_cached_witness :
  upstream_unusable (http (world_no_pairs 0 1) (search_url "ABC123")) = true /\
  (let s1 := snd (fetch_token_data ascii_lower parse_decimal sorted_desc "ABC123" (world_no_pairs 0 1)
                                   initial_state) in
   fst (fetch_token_data ascii_lower parse_decimal sorted_desc "ABC123" (world_no_pairs 0 1) initial_state) =
   Ok (degraded_record "ABC123") /\
   (exists msg, dict_lookup "warning" (degraded_record "ABC123") = Some (JStr msg) /\
                msg <> "") /\
   cache s1 = cache (after_lookup ascii_lower "ABC123" (world_no_pairs 0 1) initial_state) /\
   exists rest,
     requests (snd (fetch_token_data ascii_lower parse_decimal sorted_desc "ABC123" (world_no_pairs 2 3) s1)) =
     requests s1 ++ search_url "ABC123" :: rest).
Proof.
  split; [reflexivity |].
  apply (degraded_record_not_cached ascii_lower parse_decimal sorted_desc "ABC123"
           (world_no_pairs 0 1) (world_no_pairs 2 3) initial_state).
  - reflexivity.
  - vm_compute. discriminate.
  - vm_compute. discriminate.
Defined.

(** C4, as stated, fails: with a provider that steadily knows no pair,
    the two calls return the same record, and the second one sends a
    request all the same. *)
Lemma second_call_after_failure_queries_again :
  let s1 := snd (fetch_token_data ascii_lower parse_decimal sorted_desc "ABC123" (world_no_pairs 0 1)
                                  initial_state) in
  let s2 := snd (fetch_token_data ascii_lower parse_decimal sorted_desc "ABC123" (world_no_pairs 2 3) s1) in
  fst (fetch_token_data ascii_lower parse_decimal sorted_desc "ABC123" (world_no_pairs 2 3) s1) =
  fst (fetch_token_data ascii_lower parse_decimal sorted_desc "ABC123" (world_no_pairs 0 1) initial_state) /\
  2 < 1 + ttl /\
  requests s2 = requests s1 ++ [search_url "ABC123"] /\
  requests s2 <> requests s1.
Proof.
  split; [by_evaluation |]. split; [reflexivity |]. split; by_evaluation.
Qed.

(** C4 (amended) in the end-to-end scenario: a second call 299 seconds
    after the write. *)
Lemma cache_hit_idempotent_witness :
  300 < 1 + ttl /\
  (let s1 := snd (fetch_token_data ascii_lower parse_decimal sorted_desc "ABC123" (world_scenario 0 1)
                                   initial_state) in
   fst (fetch_token_data ascii_lower parse_decimal sorted_desc "ABC123" (world_scenario 300 301) s1) =
   Ok (scenario_record 0.03 5000) /\
   requests (snd (fetch_token_data ascii_lower parse_decimal sorted_desc "ABC123" (world_scenario 300 301) s1)) =
   requests s1).
Proof.
  split; [reflexivity |].
  apply (cache_hit_idempotent ascii_lower parse_decimal sorted_desc "ABC123"
           (world_scenario 0 1) (world_scenario 300 301) initial_state
           (scenario_record 0.03 5000)).
  - vm_compute. reflexivity.
  - reflexivity.
  - apply (fresh_record_is_live ascii_lower parse_decimal sorted_desc "ABC123" (world_scenario 0 1)
             initial_state (scenario_record 0.03 5000) 300).
    + vm_compute. discriminate.
    + vm_compute. reflexivity.
    + reflexivity.
    + reflexivity.
Defined.



(** The same three pairs in every other order give the same choice. *)
Example best_pair_any_order :
  let p10 := pair_of_liquidity "ten" 10 in
  let p500 := pair_of_liquidity "five hundred" 500 in
  let p300 := pair_of_liquidity "three hundred" 300 in
  best_pair parse_decimal sorted_desc (JArr [p10; p300; p500]) = Ok p500 /\
  best_pair parse_decimal sorted_desc (JArr [p300; p10; p500]) = Ok p500 /\
  best_pair parse_decimal sorted_desc (JArr [p300; p500; p10]) = Ok p500 /\
  best_pair parse_decimal sorted_desc (JArr [p500; p10; p300]) = Ok p500 /\
  best_pair parse_decimal sorted_desc (JArr [p500; p300; p10]) = Ok p500.
Proof. repeat split; reflexivity. Qed.

(** Of two pairs of equal liquidity the first one is chosen. *)
Example best_pair_tie :
  best_pair parse_decimal sorted_desc
            (JArr [ pair_of_liquidity "first" 500;
                    pair_of_liquidity "second" 500 ]) =
  Ok (pair_of_liquidity "first" 500).
Proof. reflexivity. Qed.

(** C6, as stated, fails: an address that matches neither side is given
    the name and symbol of the quote token, not of the base token. *)
Lemma unmatched_address_takes_quote_side :
  ascii_lower "aaa111" <> ascii_lower "ccc333" /\ ascii_lower "bbb222" <> ascii_lower "ccc333" /\
  token_info_of ascii_lower "ccc333" pair_of_strangers = Ok (token "bbb222" "Quote coin" "QUOTE") /\
  exists r,
    fst (fetch_token_data ascii_lower parse_decimal sorted_desc "ccc333" world_strangers initial_state) = Ok r /\
    dict_lookup "name" r = Some (JStr "Quote coin") /\
    dict_lookup "symbol" r = Some (JStr "QUOTE") /\
    dict_lookup "warning" r = None.
Proof.
  split; [by_evaluation |]. split; [by_evaluation |]. split; [reflexivity |].
  eexists. split; [vm_compute; reflexivity |]. repeat split; reflexivity.
Qed.

(** C6 (amended) in the end-to-end scenario: the base token matches. *)
Lemma token_side_decided_by_base_witness :
  selected_pair parse_decimal sorted_desc (http (world_scenario 0 1) (search_url "ABC123")) = Ok pair_900 /\
  exists base base_address side name symbol decimals,
    subscript pair_900 "baseToken" = Ok base /\
    subscript base "address" = Ok (JStr base_address) /\
    (if String.eqb (ascii_lower base_address) (ascii_lower "ABC123")
     then side = base
     else subscript pair_900 "quoteToken" = Ok side) /\
    py_get side "name" (JStr "Unknown") = Ok name /\
    py_get side "symbol" (JStr "???") = Ok symbol /\
    py_get side "decimals" (JInt 9) = Ok decimals /\
    dict_lookup "name" (scenario_record 0.03 5000) = Some name /\
    dict_lookup "symbol" (scenario_record 0.03 5000) = Some symbol /\
    dict_lookup "decimals" (scenario_record 0.03 5000) = Some decimals.
Proof.
  split; [vm_compute; reflexivity |].
  apply (token_side_decided_by_base ascii_lower parse_decimal sorted_desc "ABC123" (world_scenario 0 1)
           initial_state (scenario_record 0.03 5000) pair_900).
  - vm_compute. discriminate.
  - vm_compute. reflexivity.
  - reflexivity.
  - vm_compute. reflexivity.
Defined.

(** C7 at a reference price of 150 and a token price of 0.05: 3000.
    Where the quotient has more than four places the rounding shows:
    150 / 0.07 gives 2142.8571, and 150 / 3000000, a float just above
    0.00005, gives 0.0001. *)
Lemma buy_one_unit_tokens_value_witness :
  fst (fetch_token_data ascii_lower parse_decimal sorted_desc "ABC123"
                        world_five_cents initial_state) =
  Ok (scenario_record 0.05 3000) /\
  round4 (150 / 0.05) = 3000%float /\
  round4 (150 / 0.07) = 2142.8571%float /\
  round4 (150 / 3000000) = 0.0001%float /\
  round4 0.03125 = 0.0312%float /\
  exists w' sol price_usd,
    In w' [world_five_cents] /\
    fst (get_sol_price parse_decimal w' initial_state) = Ok sol /\
    dict_lookup "price_usd" (scenario_record 0.05 3000) = Some (JFloat price_usd) /\
    ((0 <? price_usd)%float = true ->
     dict_lookup "buy_1_sol_tokens" (scenario_record 0.05 3000) =
     Some (JFloat (round4 (sol / price_usd)))) /\
    ((0 <? price_usd)%float = false ->
     dict_lookup "buy_1_sol_tokens" (scenario_record 0.05 3000) = Some (JInt 0)).
Proof.
  split; [vm_compute; reflexivity |].
  split; [vm_compute; reflexivity |].
  split; [vm_compute; reflexivity |].
  split; [vm_compute; reflexivity |].
  split; [vm_compute; reflexivity |].
  destruct (buy_one_unit_tokens_value ascii_lower parse_decimal sorted_desc []
              "ABC123" world_five_cents (scenario_record 0.05 3000))
    as (w' & sol & price_usd & Hin & _ & Hsol & Hp & Hpos & Hzero & _).
  - vm_compute. reflexivity.
  - reflexivity.
  - exists w', sol, price_usd. auto.
Defined.

(** A record served from the cache keeps the quantity it was built
    with, whatever the price feed answers by then. *)
Example buy_one_unit_tokens_of_cached_record :
  let s1 := run_history ascii_lower parse_decimal sorted_desc
                        [("ABC123", world_scenario 0 1)] initial_state in
  fst (fetch_token_data ascii_lower parse_decimal sorted_desc "ABC123"
                        (world_feed_down 2 3) s1) =
  Ok (scenario_record 0.03 5000).
Proof. vm_compute. reflexivity. Qed.

(** C8, as stated, fails: a response of status 500 whose body holds a
    price gives that price, not the fallback. *)
Lemma sol_price_ignores_status :
  http world_feed_500 SOL_PRICE_URL = answer 500 (sol_feed (JStr "151.5")) /\
  fst (get_sol_price parse_decimal world_feed_500 initial_state) = Ok 151.5%float /\
  fst (get_sol_price parse_decimal world_feed_500 initial_state) <> Ok (138%float).
Proof. repeat split; by_evaluation. Qed.

(** A price that is an integer beyond the range of floats does not
    convert, and the fallback is returned. *)
Example sol_price_beyond_range :
  py_float parse_decimal (JInt (10 ^ 400)) = Raise OverflowError /\
  fst (get_sol_price parse_decimal world_feed_huge initial_state) = Ok 138%float.
Proof. split; vm_compute; reflexivity. Qed.

(** C9, as stated, fails: after a call with ["ABC123"], a call with
    ["abc123"] is served from the cache and its record says ["ABC123"]. *)
Lemma cache_hit_keeps_first_spelling :
  let s1 := run_history ascii_lower parse_decimal sorted_desc [("ABC123", world_scenario 0 1)] initial_state in
  exists r,
    fst (fetch_token_data ascii_lower parse_decimal sorted_desc "abc123" (world_scenario 2 3) s1) = Ok r /\
    dict_lookup "address" r = Some (JStr "ABC123") /\
    dict_lookup "address" r <> Some (JStr "abc123").
Proof.
  eexists. split; [vm_compute; reflexivity |]. split; by_evaluation.
Qed.

(** C10 at an answer whose first pair has a null [liquidity.usd]; the
    second pair is well formed and is not used. *)
Lemma unconvertible_number_degrades_witness :
  In pair_null_liquidity [pair_null_liquidity; pair_900] /\
  carries_nested pair_null_liquidity "liquidity" "usd" JNull /\
  unconvertible parse_decimal JNull /\
  fst (fetch_token_data ascii_lower parse_decimal sorted_desc "ABC123" world_null_liquidity initial_state) =
  Ok (degraded_record "ABC123").
Proof.
  assert (Hc : carries_nested pair_null_liquidity "liquidity" "usd" JNull).
  { exists (JObj [("usd", JNull)]). split; eexists; split; reflexivity. }
  assert (Hu : unconvertible parse_decimal JNull) by (exists TypeError; reflexivity).
  split; [left; reflexivity |]. split; [exact Hc |]. split; [exact Hu |].
  apply (unconvertible_number_degrades ascii_lower parse_decimal sorted_desc "ABC123" world_null_liquidity
           initial_state [pair_null_liquidity; pair_900]).
  - vm_compute. discriminate.
  - do 2 eexists. split; [reflexivity |]. split; [reflexivity |].
    split; [reflexivity |]. eexists. split; reflexivity.
  - left. exists pair_null_liquidity, JNull.
    split; [left; reflexivity |]. split; [exact Hc | exact Hu].
Defined.

(** C10 on a number: a liquidity beyond the range of floats does not
    convert either, and the call degrades after the search request. *)
Example huge_liquidity_degrades :
  unconvertible parse_decimal (JInt (10 ^ 400)) /\
  fetch_token_data ascii_lower parse_decimal sorted_desc "ABC123"
                   world_huge_liquidity initial_state =
  (Ok (degraded_record "ABC123"),
   {| cache := []; requests := [search_url "ABC123"] |}).
Proof.
  split; [exists OverflowError |]; vm_compute; reflexivity.
Qed.


(** ** The further properties at concrete inputs *)

Ltac answered_with_pairs :=
  do 2 eexists; split; [reflexivity |]; split; [reflexivity |];
  split; [reflexivity |]; eexists; split; reflexivity.

(** X2 at a provider that knows no pair. *)
Lemma failed_query_skips_price_feed_witness :
  requests (snd (fetch_token_data ascii_lower parse_decimal sorted_desc "ABC123" (world_no_pairs 0 1)
                                  initial_state)) =
  [search_url "ABC123"].
Proof.
  apply (failed_query_skips_price_feed ascii_lower parse_decimal sorted_desc "ABC123"
           (world_no_pairs 0 1) initial_state).
  - reflexivity.
  - vm_compute. discriminate.
Defined.

(** X3 in the end-to-end scenario: written at time 1, asked again at 301. *)
Lemma expired_record_is_refetched_witness :
  1 + 300 <= 301 /\
  (let s1 := snd (fetch_token_data ascii_lower parse_decimal sorted_desc "ABC123" (world_scenario 0 1)
                                   initial_state) in
   exists rest,
     requests (snd (fetch_token_data ascii_lower parse_decimal sorted_desc "ABC123" (world_scenario 301 302) s1)) =
     requests s1 ++ search_url "ABC123" :: rest).
Proof.
  split; [vm_compute; discriminate |].
  apply (expired_record_is_refetched ascii_lower parse_decimal sorted_desc "ABC123"
           (world_scenario 0 1) (world_scenario 301 302) initial_state
           (scenario_record 0.03 5000)).
  - vm_compute. discriminate.
  - vm_compute. reflexivity.
  - reflexivity.
  - vm_compute. discriminate.
Defined.

(** X4: ["abc123"] after ["ABC123"]. *)
Lemma case_variants_share_entry_witness :
  ascii_lower "abc123" = ascii_lower "ABC123" /\
  (let s1 := snd (fetch_token_data ascii_lower parse_decimal sorted_desc "ABC123" (world_scenario 0 1)
                                   initial_state) in
   fst (fetch_token_data ascii_lower parse_decimal sorted_desc "abc123" (world_scenario 2 3) s1) =
   Ok (scenario_record 0.03 5000) /\
   requests (snd (fetch_token_data ascii_lower parse_decimal sorted_desc "abc123" (world_scenario 2 3) s1)) =
   requests s1).
Proof.
  split; [reflexivity |].
  apply (case_variants_share_entry ascii_lower parse_decimal sorted_desc "ABC123" "abc123"
           (world_scenario 0 1) (world_scenario 2 3) initial_state
           (scenario_record 0.03 5000)).
  - reflexivity.
  - vm_compute. reflexivity.
  - reflexivity.
  - vm_compute. reflexivity.
Defined.

(** X6: a failed lookup of another address after the scenario. *)
Lemma degraded_call_leaves_cache_witness :
  let s := run_history ascii_lower parse_decimal sorted_desc [("ABC123", world_scenario 0 1)] initial_state in
  cache s <> [] /\
  cache (snd (fetch_token_data ascii_lower parse_decimal sorted_desc "zzz999" world_down s)) = cache s.
Proof.
  split; [vm_compute; discriminate |].
  apply (degraded_call_leaves_cache ascii_lower parse_decimal sorted_desc [("ABC123", world_scenario 0 1)]
           "zzz999" world_down (degraded_record "zzz999")).
  - vm_compute. reflexivity.
  - vm_compute. discriminate.
Defined.

(** X7 after the end-to-end scenario, with lowercasing of A-Z. *)
Lemma cache_stays_bounded_witness :
  let c := cache (run_history ascii_lower parse_decimal sorted_desc
                              [("ABC123", world_scenario 0 1)] initial_state) in
  c <> [] /\
  (List.length c <= 500)%nat /\
  NoDup (map e_key c) /\
  Forall (fun e => ascii_lower (e_key e) = e_key e) c.
Proof.
  split; [vm_compute; discriminate |].
  apply (cache_stays_bounded ascii_lower ascii_lower_idempotent parse_decimal sorted_desc
           [("ABC123", world_scenario 0 1)]).
Defined.

(** X8: a hit at time 2 on the entry written at time 1; the entry is
    live at 300 and not at 301, as before the hit. *)
Lemma hit_does_not_extend_life_witness :
  let s1 := snd (fetch_token_data ascii_lower parse_decimal sorted_desc "ABC123" (world_scenario 0 1)
                                  initial_state) in
  is_live "abc123" 301
          (cache (snd (fetch_token_data ascii_lower parse_decimal sorted_desc "ABC123" (world_scenario 2 3) s1))) =
  is_live "abc123" 301 (cache s1).
Proof.
  apply (hit_does_not_extend_life ascii_lower parse_decimal sorted_desc "ABC123" (world_scenario 2 3)
           (snd (fetch_token_data ascii_lower parse_decimal sorted_desc "ABC123" (world_scenario 0 1)
                                  initial_state))
           "abc123" 301).
  vm_compute. reflexivity.
Defined.

(** X9 in the end-to-end scenario, whose pairs have no [priceChange],
    [volume], [marketCap] or [fdv]. *)
Lemma absent_numbers_default_to_zero_witness :
  dict_lookup "market_cap" (scenario_record 0.03 5000) = Some (JFloat 0) /\
  dict_lookup "fdv" (scenario_record 0.03 5000) = Some (JFloat 0) /\
  dict_lookup "price_change_h24" (scenario_record 0.03 5000) = Some (JFloat 0) /\
  dict_lookup "volume_h24" (scenario_record 0.03 5000) = Some (JFloat 0).
Proof.
  destruct (absent_numbers_default_to_zero ascii_lower parse_decimal sorted_desc "ABC123" (world_scenario 0 1)
              initial_state (scenario_record 0.03 5000)
              [ ("baseToken", token "abc123" "Token" "TKN"); ("quoteToken", wsol);
                ("liquidity", JObj [("usd", JInt 900)]);
                ("priceUsd", JStr "0.03"); ("dexId", JStr "raydium");
                ("url", JStr "https://dexscreener.com/solana/pool") ])
    as (_ & Hcap & Hfdv & Hchange & _ & Hvolume).
  - vm_compute. discriminate.
  - vm_compute. reflexivity.
  - reflexivity.
  - vm_compute. reflexivity.
  - split; [apply Hcap; reflexivity |].
    split; [apply Hfdv; reflexivity |].
    split; [apply Hchange; left; reflexivity | apply Hvolume; left; reflexivity].
Defined.

(** X10 with a base token that has an address and nothing else. *)
Lemma token_fields_pass_through_or_default_witness :
  exists r,
    fst (fetch_token_data ascii_lower parse_decimal sorted_desc "ABC123" world_bare_token initial_state) = Ok r /\
    dict_lookup "name" r = Some (JStr "Unknown") /\
    dict_lookup "symbol" r = Some (JStr "???") /\
    dict_lookup "decimals" r = Some (JInt 9).
Proof.
  eexists. split; [vm_compute; reflexivity |].
  apply (token_fields_pass_through_or_default ascii_lower parse_decimal sorted_desc "ABC123" world_bare_token
           initial_state _ pair_bare_token [("address", JStr "abc123")]).
  - vm_compute. discriminate.
  - vm_compute. reflexivity.
  - reflexivity.
  - vm_compute. reflexivity.
  - reflexivity.
Defined.

(** X11 with a pair that has no [dexId]. *)
Lemma missing_required_key_degrades_witness :
  has_key "dexId" [ ("baseToken", token "abc123" "Token" "TKN"); ("quoteToken", wsol);
                    ("liquidity", JObj [("usd", JInt 900)]);
                    ("priceUsd", JStr "0.03");
                    ("url", JStr "https://dexscreener.com/solana/pool") ] = false /\
  fst (fetch_token_data ascii_lower parse_decimal sorted_desc "ABC123" world_no_dex initial_state) =
  Ok (degraded_record "ABC123").
Proof.
  split; [reflexivity |].
  apply (missing_required_key_degrades ascii_lower parse_decimal sorted_desc "ABC123" world_no_dex initial_state
           [pair_no_dex]
           [ ("baseToken", token "abc123" "Token" "TKN"); ("quoteToken", wsol);
             ("liquidity", JObj [("usd", JInt 900)]);
             ("priceUsd", JStr "0.03");
             ("url", JStr "https://dexscreener.com/solana/pool") ]).
  - vm_compute. discriminate.
  - answered_with_pairs.
  - vm_compute. reflexivity.
  - right. left. reflexivity.
Defined.

(** X12 with [pairs] a string. *)
Lemma malformed_pairs_degrade_witness :
  is_list (JStr "none") = false /\
  fst (fetch_token_data ascii_lower parse_decimal sorted_desc "ABC123" world_pairs_string initial_state) =
  Ok (degraded_record "ABC123").
Proof.
  split; [reflexivity |].
  apply (malformed_pairs_degrade ascii_lower parse_decimal sorted_desc "ABC123" world_pairs_string initial_state
           {| status := 200; json_body := Ok (JObj [("pairs", JStr "none")]) |}
           (JObj [("pairs", JStr "none")]) (JStr "none")).
  - vm_compute. discriminate.
  - reflexivity.
  - reflexivity.
  - eexists. split; reflexivity.
  - left. reflexivity.
Defined.

(** X13 in the end-to-end scenario: 900 is the greatest of 100 and 900. *)
Lemma record_reports_greatest_liquidity_witness :
  exists k pair dex url,
    dict_lookup "liquidity_usd" (scenario_record 0.03 5000) = Some (JFloat k) /\
    (forall p kp, In p [pair_100; pair_900] ->
                  liquidity_key parse_decimal p = Ok kp -> float_le kp k) /\
    In pair [pair_100; pair_900] /\ liquidity_key parse_decimal pair = Ok k /\
    subscript pair "dexId" = Ok dex /\
    dict_lookup "dex" (scenario_record 0.03 5000) = Some dex /\
    subscript pair "url" = Ok url /\
    dict_lookup "dexscreener_url" (scenario_record 0.03 5000) = Some url.
Proof.
  apply (record_reports_greatest_liquidity ascii_lower parse_decimal sorted_desc
           (fun l _ => eq_refl) "ABC123" (world_scenario 0 1)
           initial_state (scenario_record 0.03 5000) [pair_100; pair_900]).
  - vm_compute. discriminate.
  - vm_compute. reflexivity.
  - reflexivity.
  - answered_with_pairs.
  - intros p k [<- | [<- | []]] H; vm_compute in H; injection H as <-; reflexivity.
Defined.

(** X14: the end-to-end scenario with the price feed answering and with
    the price feed out of reach. *)
Lemma price_feed_decides_one_field_witness :
  exists r1 r2,
    fst (fetch_token_data ascii_lower parse_decimal sorted_desc "ABC123" (world_scenario 0 1) initial_state) = Ok r1 /\
    fst (fetch_token_data ascii_lower parse_decimal sorted_desc "ABC123" (world_feed_down 0 1) initial_state) = Ok r2 /\
    forall key, key <> "buy_1_sol_tokens" -> dict_lookup key r1 = dict_lookup key r2.
Proof.
  apply (price_feed_decides_one_field ascii_lower parse_decimal sorted_desc "ABC123"
           (world_scenario 0 1) (world_feed_down 0 1) initial_state).
  - reflexivity.
  - reflexivity.
Defined.

(** With the price feed out of reach the record is built on the fallback:
    138 / 0.03 = 4600. *)
Example price_feed_down_uses_fallback :
  fst (fetch_token_data ascii_lower parse_decimal sorted_desc "ABC123" (world_feed_down 0 1) initial_state) =
  Ok (scenario_record 0.03 4600).
Proof. vm_compute. reflexivity. Qed.
